(** * Budget Intelligence Index (BII) calculator: a shallow embedding

    This development embeds [src/bii_calculator.py] (class [BIICalculator]
    and the dataclass [LayerInputs]) in two readings of Python's [float].

    Exact reading (module [BIICalculator]).  A [float] is an exact rational
    [Q]: every literal of the source ([0.12], [3.33], [9.5], ...) is the
    rational with that decimal expansion, and [+], [-], [*], [/] are the
    exact operations.  It carries the order properties of the single scorers
    (monotonicity, caps, saturation, the grade ladder); equality of scores
    is [Qeq] ([==]).

    Binary64 reading (module [BIICalculator64]).  A [float] is an IEEE 754
    binary64 number (a primitive float), every literal is the nearest
    double, the operations round to nearest even, comparisons are those of
    IEEE 754 (false on NaN), and [round(x, 1)] rounds the exact value of the
    double half to even and returns the nearest double.  It carries the
    engine: [calculate_bii], its exceptions, the result record and every
    reported value are embedded in this reading only.

    In both readings a Python [int] is a [Z], [bool] is [bool], [str] is
    [string], and the conversion of an [int] to a [float] (the product
    [audit_delay_years * 1.0]) raises [OverflowError] when the integer has no
    binary64 value.  A division whose divisor is a variable goes through
    [truediv], which raises [ZeroDivisionError] on a zero divisor; a subscript
    of a dictionary goes through [getitem], which raises [KeyError].  The
    class attribute [LAYER_WEIGHTS] lives in a store threaded through
    [calculate_bii] by a small state-and-exception monad. *)

From Stdlib Require Import QArith Qround Qabs Lqa ZArith Lia String Bool.
From Stdlib Require Import Floats.
From stdpp Require Import gmap strings fin_maps.

#[local] Set Warnings "-inexact-float".

Local Open Scope Q_scope.
Local Open Scope string_scope.

(** ** Python values and primitives, exact reading *)

Module Py.

(** The exceptions the embedded code can raise. *)
Inductive exn : Type :=
| ZeroDivisionError
| OverflowError
| KeyError (key : string).

(** Outcome of a computation that may raise. *)
Inductive res (A : Type) : Type :=
| Ok (a : A)
| Raise (e : exn).
Arguments Ok {A} a.
Arguments Raise {A} e.

#[export] Instance res_ret : MRet res := fun A a => Ok a.
#[export] Instance res_bind : MBind res := fun A B f m =>
  match m with
  | Ok a => f a
  | Raise e => Raise e
  end.

(** Comparisons of floats, as booleans. *)
Definition flt (x y : Q) : bool := if Qlt_le_dec x y then true else false.
Definition fgt (x y : Q) : bool := flt y x.
Definition fge (x y : Q) : bool := negb (flt x y).
Definition fle (x y : Q) : bool := negb (flt y x).
Definition feq (x y : Q) : bool := Qeq_bool x y.

(** [min(a, b)] and [max(a, b)] of two arguments: the first argument is
    kept unless the second is strictly smaller (resp. strictly larger). *)
Definition min (a b : Q) : Q := if flt b a then b else a.
Definition max (a b : Q) : Q := if fgt b a then b else a.

(** [x / y] with a divisor that is not a literal. *)
Definition truediv (x y : Q) : res Q :=
  if feq y 0 then Raise ZeroDivisionError else Ok (x / y).

(** The least magnitude of an [int] without a binary64 value: the
    conversion rounds to nearest, ties to even, and [2^1024 - 2^970] is
    halfway between the largest double and [2^1024]. *)
Definition float_overflow_bound : Z := 2 ^ 1024 - 2 ^ 970.

(** The conversion of an [int] operand of a float operation. *)
Definition int_to_float (n : Z) : res Q :=
  if (float_overflow_bound <=? Z.abs n)%Z then Raise OverflowError
  else Ok (inject_Z n).

(** Nearest integer, ties to the even one. *)
Definition round_half_even (x : Q) : Z :=
  let fl := Qfloor x in
  match Qcompare (x - inject_Z fl) (1 # 2) with
  | Lt => fl
  | Gt => (fl + 1)%Z
  | Eq => if Z.even fl then fl else (fl + 1)%Z
  end.

(** [d.get(key, default)] and [d[key]] on a dictionary with string keys. *)
Definition get (d : gmap string Q) (key : string) (default : Q) : Q :=
  match d !! key with
  | Some v => v
  | None => default
  end.

Definition getitem (d : gmap string Q) (key : string) : res Q :=
  match d !! key with
  | Some v => Ok v
  | None => Raise (KeyError key)
  end.

End Py.

Import Py.

Declare Scope py_scope.
Delimit Scope py_scope with py.
Infix "<?" := Py.flt (at level 70, no associativity) : py_scope.
Infix ">?" := Py.fgt (at level 70, no associativity) : py_scope.
Infix ">=?" := Py.fge (at level 70, no associativity) : py_scope.
Infix "<=?" := Py.fle (at level 70, no associativity) : py_scope.
Infix "=?" := Py.feq (at level 70, no associativity) : py_scope.
Local Open Scope py_scope.

(** ** Class [BIICalculator], exact reading *)

Module BIICalculator.

(** Weights for each layer (lines 65-75). *)
Definition LAYER_WEIGHTS : gmap string Q :=
  {[ "fiscal_transparency" := 0.12;
     "revenue_stability" := 0.14;
     "debt_health" := 0.15;
     "expenditure_efficiency" := 0.13;
     "private_sector" := 0.11;
     "trade_integration" := 0.10;
     "climate_resilience" := 0.08;
     "digital_readiness" := 0.09;
     "human_impact" := 0.08 ]}.

(** Layer 1: Fiscal Transparency (lines 77-99). *)
Definition calculate_layer1_fiscal_transparency
    (budget_on_time : bool) (audit_delay_years : Z) : res Q :=
  let score := 5.0 in
  let score := if budget_on_time then score + 5.0 else score in
  delay ← Py.int_to_float audit_delay_years;
  let audit_penalty := Py.min (delay * 1.0) 4.0 in
  let score := score - audit_penalty in
  mret (Py.max 0.0 (Py.min 10.0 score)).

(** Layer 2: Revenue Stability (lines 101-118). *)
Definition calculate_layer2_revenue_stability
    (non_oil_percent tax_base_score collection_efficiency : Q) : Q :=
  let score :=
    ((non_oil_percent / 100 * 6.0) +
     (tax_base_score / 10 * 3.0) +
     (collection_efficiency / 10 * 1.0)) * 10 in
  Py.max 0.0 (Py.min 10.0 score).

(** Layer 3, base score from debt/GDP (lines 141-149). *)
Definition layer3_base_score (debt_to_gdp : Q) : Q :=
  if debt_to_gdp <? 60 then 9.0
  else if debt_to_gdp <? 75 then 7.0 - ((debt_to_gdp - 60) / 15 * 2)
  else if debt_to_gdp <? 85 then 5.0 - ((debt_to_gdp - 75) / 10 * 2)
  else 2.0 - ((debt_to_gdp - 85) / 15 * 2).

(** Layer 3, the dictionary of trend adjustments (lines 158-162). *)
Definition trend_adjustments : gmap string Q :=
  {[ "improving" := 1.0; "stable" := 0.0; "declining" := -1.0 ]}.

(** Layer 3: Public Debt Health (lines 120-166). *)
Definition calculate_layer3_debt_health
    (debt_to_gdp debt_service_to_revenue : Q) (fiscal_balance_trend : string)
    : Q :=
  let base_score := layer3_base_score debt_to_gdp in
  let base_score :=
    if debt_service_to_revenue <? 15 then base_score + 1.0
    else if debt_service_to_revenue >? 20 then base_score - 1.0
    else base_score in
  let trend_adjustment := Py.get trend_adjustments fiscal_balance_trend 0.0 in
  let base_score := base_score + trend_adjustment in
  Py.max 0.0 (Py.min 10.0 base_score).

(** Layer 4: Expenditure Efficiency (lines 168-185). *)
Definition calculate_layer4_expenditure_efficiency
    (productive_percent consumption_percent : Q) : res Q :=
  if consumption_percent =? 0 then mret 0.0
  else
    ratio ← Py.truediv productive_percent consumption_percent;
    let score := ratio * 5.0 in
    mret (Py.max 0.0 (Py.min 10.0 score)).

(** Layer 5: Private Sector Climate (lines 187-219). *)
Definition calculate_layer5_private_sector
    (ease_of_business_rank : Z) (sme_delivery_rate forex_access : Q) : Q :=
  let eob_score :=
    if (ease_of_business_rank <=? 50)%Z then 4.0
    else if (ease_of_business_rank <=? 100)%Z then 3.0
    else if (ease_of_business_rank <=? 150)%Z then 2.0
    else 1.0 in
  let sme_score := Py.min (sme_delivery_rate / 25) 4.0 in
  let forex_score := Py.min (forex_access / 5) 2.0 in
  let total_score := eob_score + sme_score + forex_score in
  Py.max 0.0 (Py.min 10.0 total_score).

(** Layer 6: Trade & Integration (lines 221-253). *)
Definition calculate_layer6_trade_integration
    (export_growth caricom_integration diversification_index : Q) : Q :=
  let growth_score :=
    if export_growth >=? 10 then 4.0
    else if export_growth >=? 5 then 2.0 + (export_growth - 5) / 5 * 2
    else if export_growth >=? 0 then export_growth / 5 * 2
    else 0.0 in
  let caricom_score := Py.min (caricom_integration / 3.33) 3.0 in
  let div_score := (1 - diversification_index) * 3.0 in
  let total_score := growth_score + caricom_score + div_score in
  Py.max 0.0 (Py.min 10.0 total_score).

(** Layer 7, budget allocation score (lines 269-277). *)
Definition layer7_budget_score (climate_budget_gdp : Q) : Q :=
  if climate_budget_gdp >=? 2.0 then 4.0
  else if climate_budget_gdp >=? 1.0 then 2.0 + (climate_budget_gdp - 1.0) * 2
  else if climate_budget_gdp >=? 0.5 then 1.0 + (climate_budget_gdp - 0.5) * 2
  else climate_budget_gdp / 0.5.

(** Layer 7: Climate & Resilience (lines 255-294). *)
Definition calculate_layer7_climate_resilience
    (climate_budget_gdp : Q) (projects_count : Z) (adaptation_funding : Q)
    : Q :=
  let budget_score := layer7_budget_score climate_budget_gdp in
  let projects_score :=
    if (projects_count >=? 10)%Z then 3.0
    else if (projects_count >=? 5)%Z then 2.0
    else if (projects_count >=? 1)%Z then 1.0
    else 0.0 in
  let adaptation_score := Py.min (adaptation_funding / 3.33) 3.0 in
  let total_score := budget_score + projects_score + adaptation_score in
  Py.max 0.0 (Py.min 10.0 total_score).

(** Layer 8: Digital Readiness (lines 296-333). *)
Definition calculate_layer8_digital_readiness
    (ict_budget_percent egov_adoption digital_literacy : Q) : Q :=
  let ict_score :=
    if ict_budget_percent >=? 2.0 then 3.0
    else if ict_budget_percent >=? 1.0 then 2.0 + (ict_budget_percent - 1.0)
    else if ict_budget_percent >=? 0.5
         then 1.0 + (ict_budget_percent - 0.5) * 2
    else ict_budget_percent / 0.5 in
  let egov_score :=
    if egov_adoption >=? 50 then 4.0
    else if egov_adoption >=? 25 then 2.0 + (egov_adoption - 25) / 25 * 2
    else egov_adoption / 25 * 2 in
  let literacy_score := Py.min (digital_literacy / 3.33) 3.0 in
  let total_score := ict_score + egov_score + literacy_score in
  Py.max 0.0 (Py.min 10.0 total_score).

(** Layer 9: Human Impact (lines 335-384). *)
Definition calculate_layer9_human_impact
    (inflation unemployment real_wage_growth food_security : Q) : Q :=
  let inflation_score :=
    if inflation <? 2 then 3.0
    else if inflation <? 4 then 2.0
    else if inflation <? 6 then 1.0
    else 0.0 in
  let unemp_score :=
    if unemployment <? 4 then 3.0
    else if unemployment <? 6 then 2.0
    else if unemployment <? 8 then 1.0
    else 0.0 in
  let wage_score :=
    if real_wage_growth >? 2 then 2.0
    else if real_wage_growth >? 0 then 1.0
    else 0.0 in
  let food_score := Py.min (food_security / 5) 2.0 in
  let total_score := inflation_score + unemp_score + wage_score + food_score in
  Py.max 0.0 (Py.min 10.0 total_score).

(** Convert BII score to letter grade (lines 478-506). *)
Definition _calculate_grade (score : Q) : string :=
  if score >=? 9.5 then "A+"
  else if score >=? 9.0 then "A"
  else if score >=? 8.5 then "A-"
  else if score >=? 8.0 then "B+"
  else if score >=? 7.0 then "B"
  else if score >=? 6.5 then "B-"
  else if score >=? 6.0 then "C+"
  else if score >=? 5.0 then "C"
  else if score >=? 4.5 then "C-"
  else if score >=? 4.0 then "D+"
  else if score >=? 3.0 then "D"
  else if score >=? 2.0 then "D-"
  else "F".

End BIICalculator.

Import BIICalculator.

(** ** Python values and primitives, binary64 reading *)

Module F64.

Local Open Scope float_scope.

(** [min(a, b)] and [max(a, b)]: the first argument is kept unless the
    second compares strictly smaller (resp. strictly larger); a NaN never
    does. *)
Definition min (a b : float) : float := if b <? a then b else a.
Definition max (a b : float) : float := if a <? b then b else a.

(** [x / y] with a divisor that is not a literal: only a zero divisor
    raises, an overflowing quotient is an infinity. *)
Definition truediv (x y : float) : res float :=
  if y =? 0 then Raise ZeroDivisionError else Ok (x / y).

(** The conversion of an [int] operand of a float operation: the nearest
    double, ties to even, and [OverflowError] from [2^1024 - 2^970] on,
    where the nearest double would be an infinity. *)
Definition int_to_float (n : Z) : res float :=
  if (Py.float_overflow_bound <=? Z.abs n)%Z then Raise OverflowError
  else Ok (SF2Prim (binary_normalize prec emax n 0 false)).

(** The double nearest to the fraction [num / den], with the sign [s]. *)
Definition nearest (s : bool) (num den : positive) : float :=
  SF2Prim (SFdiv prec emax (S754_finite s num 0) (S754_finite false den 0)).

(** [round(x, ndigits)] for a non-negative [ndigits]: the exact value of
    the double is rounded to [ndigits] decimals, half to even, and the
    nearest double is returned; zeros, infinities and NaN are returned as
    they are. *)
Definition round (x : float) (ndigits : nat) : float :=
  match Prim2SF x with
  | S754_finite s m e =>
      let scale := (10 ^ Z.of_nat ndigits)%Z in
      let k := Py.round_half_even
                 (inject_Z (Zpos m) * Qpower 2 e * inject_Z scale)%Q in
      match k with
      | Zpos p => nearest s p (Z.to_pos scale)
      | _ => if s then -0 else 0
      end
  | _ => x
  end.

(** [d.get(key, default)] and [d[key]] on a dictionary with string keys. *)
Definition get (d : gmap string float) (key : string) (default : float)
    : float :=
  match d !! key with
  | Some v => v
  | None => default
  end.

Definition getitem (d : gmap string float) (key : string) : res float :=
  match d !! key with
  | Some v => Ok v
  | None => Raise (KeyError key)
  end.

End F64.

(** ** The input record (dataclass [LayerInputs]) *)

Record LayerInputs : Type := {
  (* Layer 1: Fiscal Transparency *)
  budget_on_time : bool;
  audit_delay_years : Z;
  (* Layer 2: Revenue Stability *)
  non_oil_revenue_percent : float;
  tax_base_breadth_score : float;
  collection_efficiency : float;
  (* Layer 3: Public Debt Health *)
  debt_to_gdp : float;
  debt_service_to_revenue : float;
  fiscal_balance_trend : string;
  (* Layer 4: Expenditure Efficiency *)
  productive_spending_percent : float;
  consumption_spending_percent : float;
  (* Layer 5: Private Sector Climate *)
  ease_of_business_rank : Z;
  sme_support_delivery_rate : float;
  forex_access_score : float;
  (* Layer 6: Trade & Integration *)
  non_oil_exports_growth : float;
  caricom_integration_score : float;
  export_diversification_index : float;
  (* Layer 7: Climate & Resilience *)
  climate_budget_gdp_percent : float;
  green_projects_count : Z;
  adaptation_funding_score : float;
  (* Layer 8: Digital Readiness *)
  ict_budget_percent : float;
  egov_adoption_percent : float;
  digital_literacy_score : float;
  (* Layer 9: Human Impact *)
  inflation_rate : float;
  unemployment_rate : float;
  real_wage_growth : float;
  food_security_score : float
}.

(** ** The result record (the dictionary returned by [calculate_bii]) *)

Record BIIResult : Type := {
  layer1_fiscal_transparency : float;
  layer2_revenue_stability : float;
  layer3_debt_health : float;
  layer4_expenditure_efficiency : float;
  layer5_private_sector : float;
  layer6_trade_integration : float;
  layer7_climate_resilience : float;
  layer8_digital_readiness : float;
  layer9_human_impact : float;
  bii_overall : float;
  bii_grade : string
}.

(** ** The store: class attributes of [BIICalculator] *)

Record Store : Type := { cls_LAYER_WEIGHTS : gmap string float }.

(** State-and-exception monad over the store. *)
Record M (A : Type) : Type := MkM { runM : Store -> res A * Store }.
Arguments MkM {A} _.
Arguments runM {A} _ _.

#[export] Instance M_ret : MRet M := fun A a => MkM (fun s => (Ok a, s)).
#[export] Instance M_bind : MBind M := fun A B f m =>
  MkM (fun s =>
         match runM m s with
         | (Ok a, s') => runM (f a) s'
         | (Raise e, s') => (Raise e, s')
         end).

(** Reading a class attribute, and running a store-free computation. *)
Definition read_LAYER_WEIGHTS : M (gmap string float) :=
  MkM (fun s => (Ok (cls_LAYER_WEIGHTS s), s)).

Definition lift {A : Type} (r : res A) : M A := MkM (fun s => (r, s)).

(** ** Class [BIICalculator], binary64 reading *)

Module BIICalculator64.

Local Open Scope float_scope.

(** Weights for each layer (lines 65-75). *)
Definition LAYER_WEIGHTS : gmap string float :=
  {[ "fiscal_transparency" := 0.12;
     "revenue_stability" := 0.14;
     "debt_health" := 0.15;
     "expenditure_efficiency" := 0.13;
     "private_sector" := 0.11;
     "trade_integration" := 0.10;
     "climate_resilience" := 0.08;
     "digital_readiness" := 0.09;
     "human_impact" := 0.08 ]}.

(** The store in which the class body has just been executed. *)
Definition cls : Store := {| cls_LAYER_WEIGHTS := LAYER_WEIGHTS |}.

(** Layer 1: Fiscal Transparency (lines 77-99). *)
Definition calculate_layer1_fiscal_transparency
    (budget_on_time : bool) (audit_delay_years : Z) : res float :=
  let score := 5.0 in
  let score := if budget_on_time then score + 5.0 else score in
  delay ← F64.int_to_float audit_delay_years;
  let audit_penalty := F64.min (delay * 1.0) 4.0 in
  let score := score - audit_penalty in
  mret (F64.max 0.0 (F64.min 10.0 score)).

(** Layer 2: Revenue Stability (lines 101-118). *)
Definition calculate_layer2_revenue_stability
    (non_oil_percent tax_base_score collection_efficiency : float) : float :=
  let score :=
    ((non_oil_percent / 100 * 6.0) +
     (tax_base_score / 10 * 3.0) +
     (collection_efficiency / 10 * 1.0)) * 10 in
  F64.max 0.0 (F64.min 10.0 score).

(** Layer 3, the dictionary of trend adjustments (lines 158-162). *)
Definition trend_adjustments : gmap string float :=
  {[ "improving" := 1.0; "stable" := 0.0; "declining" := -1.0 ]}.

(** Layer 3: Public Debt Health (lines 120-166). *)
Definition calculate_layer3_debt_health
    (debt_to_gdp debt_service_to_revenue : float)
    (fiscal_balance_trend : string) : float :=
  let base_score :=
    if debt_to_gdp <? 60 then 9.0
    else if debt_to_gdp <? 75 then 7.0 - ((debt_to_gdp - 60) / 15 * 2)
    else if debt_to_gdp <? 85 then 5.0 - ((debt_to_gdp - 75) / 10 * 2)
    else 2.0 - ((debt_to_gdp - 85) / 15 * 2) in
  let base_score :=
    if debt_service_to_revenue <? 15 then base_score + 1.0
    else if 20 <? debt_service_to_revenue then base_score - 1.0
    else base_score in
  let trend_adjustment :=
    F64.get trend_adjustments fiscal_balance_trend 0.0 in
  let base_score := base_score + trend_adjustment in
  F64.max 0.0 (F64.min 10.0 base_score).

(** Layer 4: Expenditure Efficiency (lines 168-185). *)
Definition calculate_layer4_expenditure_efficiency
    (productive_percent consumption_percent : float) : res float :=
  if consumption_percent =? 0 then mret 0.0
  else
    ratio ← F64.truediv productive_percent consumption_percent;
    let score := ratio * 5.0 in
    mret (F64.max 0.0 (F64.min 10.0 score)).

(** Layer 5: Private Sector Climate (lines 187-219). *)
Definition calculate_layer5_private_sector
    (ease_of_business_rank : Z) (sme_delivery_rate forex_access : float)
    : float :=
  let eob_score :=
    if (ease_of_business_rank <=? 50)%Z then 4.0
    else if (ease_of_business_rank <=? 100)%Z then 3.0
    else if (ease_of_business_rank <=? 150)%Z then 2.0
    else 1.0 in
  let sme_score := F64.min (sme_delivery_rate / 25) 4.0 in
  let forex_score := F64.min (forex_access / 5) 2.0 in
  let total_score := eob_score + sme_score + forex_score in
  F64.max 0.0 (F64.min 10.0 total_score).

(** Layer 6: Trade & Integration (lines 221-253). *)
Definition calculate_layer6_trade_integration
    (export_growth caricom_integration diversification_index : float)
    : float :=
  let growth_score :=
    if 10 <=? export_growth then 4.0
    else if 5 <=? export_growth then 2.0 + (export_growth - 5) / 5 * 2
    else if 0 <=? export_growth then export_growth / 5 * 2
    else 0.0 in
  let caricom_score := F64.min (caricom_integration / 3.33) 3.0 in
  let div_score := (1 - diversification_index) * 3.0 in
  let total_score := growth_score + caricom_score + div_score in
  F64.max 0.0 (F64.min 10.0 total_score).

(** Layer 7: Climate & Resilience (lines 255-294). *)
Definition calculate_layer7_climate_resilience
    (climate_budget_gdp : float) (projects_count : Z)
    (adaptation_funding : float) : float :=
  let budget_score :=
    if 2.0 <=? climate_budget_gdp then 4.0
    else if 1.0 <=? climate_budget_gdp
         then 2.0 + (climate_budget_gdp - 1.0) * 2
    else if 0.5 <=? climate_budget_gdp
         then 1.0 + (climate_budget_gdp - 0.5) * 2
    else climate_budget_gdp / 0.5 in
  let projects_score :=
    if (projects_count >=? 10)%Z then 3.0
    else if (projects_count >=? 5)%Z then 2.0
    else if (projects_count >=? 1)%Z then 1.0
    else 0.0 in
  let adaptation_score := F64.min (adaptation_funding / 3.33) 3.0 in
  let total_score := budget_score + projects_score + adaptation_score in
  F64.max 0.0 (F64.min 10.0 total_score).

(** Layer 8: Digital Readiness (lines 296-333). *)
Definition calculate_layer8_digital_readiness
    (ict_budget_percent egov_adoption digital_literacy : float) : float :=
  let ict_score :=
    if 2.0 <=? ict_budget_percent then 3.0
    else if 1.0 <=? ict_budget_percent
         then 2.0 + (ict_budget_percent - 1.0)
    else if 0.5 <=? ict_budget_percent
         then 1.0 + (ict_budget_percent - 0.5) * 2
    else ict_budget_percent / 0.5 in
  let egov_score :=
    if 50 <=? egov_adoption then 4.0
    else if 25 <=? egov_adoption then 2.0 + (egov_adoption - 25) / 25 * 2
    else egov_adoption / 25 * 2 in
  let literacy_score := F64.min (digital_literacy / 3.33) 3.0 in
  let total_score := ict_score + egov_score + literacy_score in
  F64.max 0.0 (F64.min 10.0 total_score).

(** Layer 9: Human Impact (lines 335-384). *)
Definition calculate_layer9_human_impact
    (inflation unemployment real_wage_growth food_security : float)
    : float :=
  let inflation_score :=
    if inflation <? 2 then 3.0
    else if inflation <? 4 then 2.0
    else if inflation <? 6 then 1.0
    else 0.0 in
  let unemp_score :=
    if unemployment <? 4 then 3.0
    else if unemployment <? 6 then 2.0
    else if unemployment <? 8 then 1.0
    else 0.0 in
  let wage_score :=
    if 2 <? real_wage_growth then 2.0
    else if 0 <? real_wage_growth then 1.0
    else 0.0 in
  let food_score := F64.min (food_security / 5) 2.0 in
  let total_score := inflation_score + unemp_score + wage_score + food_score in
  F64.max 0.0 (F64.min 10.0 total_score).

(** Convert BII score to letter grade (lines 478-506). *)
Definition _calculate_grade (score : float) : string :=
  if 9.5 <=? score then "A+"
  else if 9.0 <=? score then "A"
  else if 8.5 <=? score then "A-"
  else if 8.0 <=? score then "B+"
  else if 7.0 <=? score then "B"
  else if 6.5 <=? score then "B-"
  else if 6.0 <=? score then "C+"
  else if 5.0 <=? score then "C"
  else if 4.5 <=? score then "C-"
  else if 4.0 <=? score then "D+"
  else if 3.0 <=? score then "D"
  else if 2.0 <=? score then "D-"
  else "F".

(** The local variables [layer1] ... [layer9] of [calculate_bii]: the nine
    layer scores before rounding. *)
Record LayerScores : Type := {
  layer1 : float; layer2 : float; layer3 : float; layer4 : float;
  layer5 : float; layer6 : float; layer7 : float; layer8 : float;
  layer9 : float
}.

(** [calculate_bii], "Calculate each layer" (lines 394-446). *)
Definition score_layers (inputs : LayerInputs) : res LayerScores :=
  layer1 ← calculate_layer1_fiscal_transparency
             (budget_on_time inputs) (audit_delay_years inputs);
  let layer2 := calculate_layer2_revenue_stability
                  (non_oil_revenue_percent inputs)
                  (tax_base_breadth_score inputs)
                  (collection_efficiency inputs) in
  let layer3 := calculate_layer3_debt_health
                  (debt_to_gdp inputs) (debt_service_to_revenue inputs)
                  (fiscal_balance_trend inputs) in
  layer4 ← calculate_layer4_expenditure_efficiency
             (productive_spending_percent inputs)
             (consumption_spending_percent inputs);
  let layer5 := calculate_layer5_private_sector
                  (ease_of_business_rank inputs)
                  (sme_support_delivery_rate inputs)
                  (forex_access_score inputs) in
  let layer6 := calculate_layer6_trade_integration
                  (non_oil_exports_growth inputs)
                  (caricom_integration_score inputs)
                  (export_diversification_index inputs) in
  let layer7 := calculate_layer7_climate_resilience
                  (climate_budget_gdp_percent inputs)
                  (green_projects_count inputs)
                  (adaptation_funding_score inputs) in
  let layer8 := calculate_layer8_digital_readiness
                  (ict_budget_percent inputs) (egov_adoption_percent inputs)
                  (digital_literacy_score inputs) in
  let layer9 := calculate_layer9_human_impact
                  (inflation_rate inputs) (unemployment_rate inputs)
                  (real_wage_growth inputs) (food_security_score inputs) in
  mret {| layer1 := layer1; layer2 := layer2; layer3 := layer3;
          layer4 := layer4; layer5 := layer5; layer6 := layer6;
          layer7 := layer7; layer8 := layer8; layer9 := layer9 |}.

(** The expression [cls.LAYER_WEIGHTS[name]]. *)
Definition weight (name : string) : M float :=
  d ← read_LAYER_WEIGHTS; lift (F64.getitem d name).

(** [calculate_bii], "Calculate weighted overall BII" (lines 448-459). *)
Definition weighted_overall (ls : LayerScores) : M float :=
  w1 ← weight "fiscal_transparency";
  w2 ← weight "revenue_stability";
  w3 ← weight "debt_health";
  w4 ← weight "expenditure_efficiency";
  w5 ← weight "private_sector";
  w6 ← weight "trade_integration";
  w7 ← weight "climate_resilience";
  w8 ← weight "digital_readiness";
  w9 ← weight "human_impact";
  mret (layer1 ls * w1 + layer2 ls * w2 + layer3 ls * w3 +
        layer4 ls * w4 + layer5 ls * w5 + layer6 ls * w6 +
        layer7 ls * w7 + layer8 ls * w8 + layer9 ls * w9).

(** Calculate complete BII score from all 9 layers (lines 386-476). *)
Definition calculate_bii (inputs : LayerInputs) : M BIIResult :=
  ls ← lift (score_layers inputs);
  bii_overall ← weighted_overall ls;
  let grade := _calculate_grade bii_overall in
  mret {| layer1_fiscal_transparency := F64.round (layer1 ls) 1;
          layer2_revenue_stability := F64.round (layer2 ls) 1;
          layer3_debt_health := F64.round (layer3 ls) 1;
          layer4_expenditure_efficiency := F64.round (layer4 ls) 1;
          layer5_private_sector := F64.round (layer5 ls) 1;
          layer6_trade_integration := F64.round (layer6 ls) 1;
          layer7_climate_resilience := F64.round (layer7 ls) 1;
          layer8_digital_readiness := F64.round (layer8 ls) 1;
          layer9_human_impact := F64.round (layer9 ls) 1;
          bii_overall := F64.round bii_overall 1;
          bii_grade := grade |}.

(** The sample record of the source's example (lines 515-559). *)
Definition inputs_2026 : LayerInputs := {|
  budget_on_time := true;
  audit_delay_years := 2;
  non_oil_revenue_percent := 78.0;
  tax_base_breadth_score := 5.0;
  collection_efficiency := 5.0;
  debt_to_gdp := 81.8;
  debt_service_to_revenue := 20.6;
  fiscal_balance_trend := "declining";
  productive_spending_percent := 25.4;
  consumption_spending_percent := 50.3;
  ease_of_business_rank := 105;
  sme_support_delivery_rate := 28.0;
  forex_access_score := 4.0;
  non_oil_exports_growth := -6.0;
  caricom_integration_score := 5.2;
  export_diversification_index := 0.78;
  climate_budget_gdp_percent := 0.18;
  green_projects_count := 5;
  adaptation_funding_score := 3.6;
  ict_budget_percent := 0.9;
  egov_adoption_percent := 32.0;
  digital_literacy_score := 5.1;
  inflation_rate := 0.3;
  unemployment_rate := 4.2;
  real_wage_growth := -0.5;
  food_security_score := 5.4
|}.


(** The same record with a Layer 4 score of [6 / 5 * 5 = 6]. *)
Definition inputs_near_top : LayerInputs := {|
  budget_on_time := true;
  audit_delay_years := 0;
  non_oil_revenue_percent := 100.0;
  tax_base_breadth_score := 10.0;
  collection_efficiency := 10.0;
  debt_to_gdp := 40.0;
  debt_service_to_revenue := 10.0;
  fiscal_balance_trend := "stable";
  productive_spending_percent := 6.0;
  consumption_spending_percent := 5.0;
  ease_of_business_rank := 1;
  sme_support_delivery_rate := 100.0;
  forex_access_score := 10.0;
  non_oil_exports_growth := 10.0;
  caricom_integration_score := 10.0;
  export_diversification_index := 0.0;
  climate_budget_gdp_percent := 2.0;
  green_projects_count := 10;
  adaptation_funding_score := 10.0;
  ict_budget_percent := 2.0;
  egov_adoption_percent := 50.0;
  digital_literacy_score := 10.0;
  inflation_rate := 1.0;
  unemployment_rate := 3.0;
  real_wage_growth := 3.0;
  food_security_score := 10.0
|}.

End BIICalculator64.

(** ** Vocabulary of the statements *)

(** The thirteen grades from the lowest to the highest, and the position of
    a grade in that order. *)
Definition grade_order : list string :=
  ["F"; "D-"; "D"; "D+"; "C-"; "C"; "C+"; "B-"; "B"; "B+"; "A-"; "A"; "A+"].

Fixpoint position (g : string) (l : list string) : nat :=
  match l with
  | [] => 0
  | h :: t => if String.eqb g h then 0 else S (position g t)
  end.

Definition grade_rank (g : string) : nat := position g grade_order.

(** A double that lies in [0, 10], by the comparisons of IEEE 754 (so it is
    no NaN). *)
Definition in_range64 (x : float) : Prop :=
  (0 <=? x)%float = true /\ (x <=? 10)%float = true.

(** All nine scores of a record of local variables lie in [0, 10]. *)
Definition scores_in_range (ls : BIICalculator64.LayerScores) : Prop :=
  in_range64 (BIICalculator64.layer1 ls) /\
  in_range64 (BIICalculator64.layer2 ls) /\
  in_range64 (BIICalculator64.layer3 ls) /\
  in_range64 (BIICalculator64.layer4 ls) /\
  in_range64 (BIICalculator64.layer5 ls) /\
  in_range64 (BIICalculator64.layer6 ls) /\
  in_range64 (BIICalculator64.layer7 ls) /\
  in_range64 (BIICalculator64.layer8 ls) /\
  in_range64 (BIICalculator64.layer9 ls).

(** The weighted sum of lines 449-459 with the weights of lines 65-75
    written in place of the nine dictionary subscripts: nine products and
    eight sums in binary64, from left to right, and no clamp. *)
Definition weighted_sum (ls : BIICalculator64.LayerScores) : float :=
  (BIICalculator64.layer1 ls * 0.12 + BIICalculator64.layer2 ls * 0.14 +
   BIICalculator64.layer3 ls * 0.15 + BIICalculator64.layer4 ls * 0.13 +
   BIICalculator64.layer5 ls * 0.11 + BIICalculator64.layer6 ls * 0.10 +
   BIICalculator64.layer7 ls * 0.08 + BIICalculator64.layer8 ls * 0.09 +
   BIICalculator64.layer9 ls * 0.08)%float.

(** The result record that [calculate_bii] builds from the nine scores:
    each score and the weighted sum rounded to one decimal place, and the
    grade of the weighted sum as it is. *)
Definition result_of (ls : BIICalculator64.LayerScores) : BIIResult := {|
  layer1_fiscal_transparency := F64.round (BIICalculator64.layer1 ls) 1;
  layer2_revenue_stability := F64.round (BIICalculator64.layer2 ls) 1;
  layer3_debt_health := F64.round (BIICalculator64.layer3 ls) 1;
  layer4_expenditure_efficiency := F64.round (BIICalculator64.layer4 ls) 1;
  layer5_private_sector := F64.round (BIICalculator64.layer5 ls) 1;
  layer6_trade_integration := F64.round (BIICalculator64.layer6 ls) 1;
  layer7_climate_resilience := F64.round (BIICalculator64.layer7 ls) 1;
  layer8_digital_readiness := F64.round (BIICalculator64.layer8 ls) 1;
  layer9_human_impact := F64.round (BIICalculator64.layer9 ls) 1;
  bii_overall := F64.round (weighted_sum ls) 1;
  bii_grade := BIICalculator64._calculate_grade (weighted_sum ls)
|}.

(** The keys subscripted by [calculate_bii], in the order of lines 450-458,
    and the first of them that a dictionary lacks. *)
Definition layer_names : list string :=
  ["fiscal_transparency"; "revenue_stability"; "debt_health";
   "expenditure_efficiency"; "private_sector"; "trade_integration";
   "climate_resilience"; "digital_readiness"; "human_impact"].

Fixpoint first_missing (d : gmap string float) (names : list string)
    : option string :=
  match names with
  | [] => None
  | k :: rest =>
      match d !! k with
      | Some _ => first_missing d rest
      | None => Some k
      end
  end.

(** A computation that leaves the store as it found it. *)
Definition read_only {A : Type} (m : M A) : Prop :=
  forall s : Store, snd (runM m s) = s.

(** * Properties *)

(** ** Proof support *)

(** Division by a literal is multiplication by a literal: the linear
    arithmetic procedures do not read [Qdiv] on their own. *)
Ltac qinv_consts :=
  unfold Qdiv in *;
  repeat match goal with
  | |- context [Qinv (Qmake ?n ?d)] =>
      let v := eval vm_compute in (Qinv (Qmake n d)) in
      change (Qinv (Qmake n d)) with v
  | H : context [Qinv (Qmake ?n ?d)] |- _ =>
      let v := eval vm_compute in (Qinv (Qmake n d)) in
      change (Qinv (Qmake n d)) with v in H
  end.

(** Case analysis on every float comparison of the goal, innermost first. *)
Ltac no_cmp_in t :=
  lazymatch t with
  | context [Qlt_le_dec _ _] => fail
  | _ => idtac
  end.

Ltac py_cases :=
  unfold Py.min, Py.max, Py.fge, Py.fgt, Py.fle, Py.flt in *;
  repeat match goal with
  | |- context [Qlt_le_dec ?a ?b] =>
      no_cmp_in a; no_cmp_in b; destruct (Qlt_le_dec a b); simpl
  end.

Ltac py_arith := py_cases; qinv_consts; try lra.

Lemma lt_true (x y : Q) : (x <? y) = true <-> x < y.
Proof. unfold Py.flt. destruct (Qlt_le_dec x y); split; intros; try easy; lra. Qed.

Lemma lt_false (x y : Q) : (x <? y) = false <-> y <= x.
Proof. unfold Py.flt. destruct (Qlt_le_dec x y); split; intros; try easy; lra. Qed.

Lemma ge_true (x y : Q) : (x >=? y) = true <-> y <= x.
Proof. unfold Py.fge. rewrite negb_true_iff. apply lt_false. Qed.

Lemma eq_true (x y : Q) : (x =? y) = true <-> x == y.
Proof. apply Qeq_bool_iff. Qed.

Lemma eq_false (x y : Q) : (x =? y) = false <-> ~ x == y.
Proof.
  unfold Py.feq. split.
  - intros H E. apply Qeq_bool_iff in E. congruence.
  - intros H. destruct (Qeq_bool x y) eqn:E; [|reflexivity].
    apply Qeq_bool_iff in E. contradiction.
Qed.

(** The final clamp of every scorer, [max(0.0, min(10.0, score))]. *)
Lemma clamp_bounds (score : Q) : 0 <= Py.max 0.0 (Py.min 10.0 score) <= 10.
Proof. py_arith. Qed.

Lemma clamp_inside (score : Q) :
  0 <= score <= 10 -> Py.max 0.0 (Py.min 10.0 score) == score.
Proof. intros [? ?]. py_arith. Qed.

Lemma clamp_above (score : Q) :
  10 <= score -> Py.max 0.0 (Py.min 10.0 score) == 10.
Proof. intros ?. py_arith. Qed.

(** ** Layer 2: Revenue Stability *)

(** The three point contributions of the Layer 2 formula. *)
Lemma layer2_is_ten_times_points (n t e : Q) :
  calculate_layer2_revenue_stability n t e
  = Py.max 0.0 (Py.min 10.0 ((n / 100 * 6.0 + t / 10 * 3.0 + e / 10 * 1.0) * 10)).
Proof. reflexivity. Qed.

(** On non-negative inputs the score is ten times the sum of the point
    contributions as long as that sum is at most 1, and 10 beyond. *)
Lemma layer2_value (n t e : Q) :
  0 <= n -> 0 <= t -> 0 <= e ->
  let points := n / 100 * 6.0 + t / 10 * 3.0 + e / 10 * 1.0 in
  (points <= 1 -> calculate_layer2_revenue_stability n t e == points * 10) /\
  (1 <= points -> calculate_layer2_revenue_stability n t e == 10).
Proof.
  intros Hn Ht He points. subst points.
  unfold calculate_layer2_revenue_stability. split; intros Hp.
  - apply clamp_inside. qinv_consts. lra.
  - apply clamp_above. qinv_consts. lra.
Qed.

(** C1 (evaluation at the failing input).  At (50, 5, 5) the three point
    contributions 50/100*6, 5/10*3 and 5/10*1 sum to 5, but
    [calculate_layer2_revenue_stability] returns 10: the sum of the
    contributions is multiplied by 10 before the clamp, so the returned score
    is not the sum of the contributions. *)
Theorem layer2_half_marks_returns_ten :
  (50 / 100 * 6.0 + 5 / 10 * 3.0 + 5 / 10 * 1.0 == 5) /\
  calculate_layer2_revenue_stability 50 5 5 == 10 /\
  ~ calculate_layer2_revenue_stability 50 5 5 == 5.
Proof.
  split; [reflexivity|]. split; [reflexivity|].
  intros H. vm_compute in H. discriminate H.
Qed.

(** C10.  Whenever the tax-base and efficiency scores are non-negative and
    the non-oil share is at least 50/3, Layer 2 returns exactly 10. *)
Theorem layer2_saturates (non_oil tax eff : Q) :
  0 <= tax -> 0 <= eff -> 50 / 3 <= non_oil ->
  calculate_layer2_revenue_stability non_oil tax eff == 10.
Proof.
  intros Ht He Hn. unfold calculate_layer2_revenue_stability.
  apply clamp_above. qinv_consts. lra.
Qed.

Lemma layer2_saturates_witness :
  calculate_layer2_revenue_stability 78.0 5.0 5.0 == 10.
Proof.
  apply (layer2_saturates 78.0 5.0 5.0); vm_compute; discriminate.
Defined.

(** X1.  Raising the non-oil revenue share, the other two Layer 2 inputs
    held fixed, never lowers the Layer 2 score. *)
Theorem layer2_monotone_in_non_oil (n1 n2 tax eff : Q) :
  n1 <= n2 ->
  calculate_layer2_revenue_stability n1 tax eff
  <= calculate_layer2_revenue_stability n2 tax eff.
Proof.
  intros Hle. unfold calculate_layer2_revenue_stability. py_arith.
Qed.

Lemma layer2_monotone_in_non_oil_witness :
  calculate_layer2_revenue_stability 5 1 1
  <= calculate_layer2_revenue_stability 10 1 1.
Proof.
  apply (layer2_monotone_in_non_oil 5 10 1 1). vm_compute. discriminate.
Defined.

(** ** Layer 4: Expenditure Efficiency *)

Lemma layer4_zero_consumption (productive consumption : Q) :
  consumption == 0 ->
  calculate_layer4_expenditure_efficiency productive consumption = Ok 0.0.
Proof.
  intros H. unfold calculate_layer4_expenditure_efficiency.
  apply eq_true in H. rewrite H. reflexivity.
Qed.

Lemma layer4_nonzero_consumption (productive consumption : Q) :
  ~ consumption == 0 ->
  calculate_layer4_expenditure_efficiency productive consumption
  = Ok (Py.max 0.0 (Py.min 10.0 (productive / consumption * 5.0))).
Proof.
  intros H. unfold calculate_layer4_expenditure_efficiency, Py.truediv.
  apply eq_false in H. rewrite H. reflexivity.
Qed.

(** C3.  With a consumption share equal to zero the scorer returns 0.0
    without raising; with any other consumption share it returns, again
    without raising, (productive / consumption) * 5 clamped to [0, 10]. *)
Theorem layer4_zero_consumption_policy (productive consumption : Q) :
  (consumption == 0 ->
   calculate_layer4_expenditure_efficiency productive consumption = Ok 0.0) /\
  (~ consumption == 0 ->
   calculate_layer4_expenditure_efficiency productive consumption
   = Ok (Py.max 0.0 (Py.min 10.0 (productive / consumption * 5.0)))).
Proof.
  split.
  - apply layer4_zero_consumption.
  - apply layer4_nonzero_consumption.
Qed.

Lemma layer4_zero_consumption_policy_witness :
  calculate_layer4_expenditure_efficiency 25.4 0 = Ok 0.0 /\
  calculate_layer4_expenditure_efficiency 25.4 50.3
  = Ok (Py.max 0.0 (Py.min 10.0 (25.4 / 50.3 * 5.0))).
Proof.
  split.
  - apply (proj1 (layer4_zero_consumption_policy 25.4 0)). reflexivity.
  - apply (proj2 (layer4_zero_consumption_policy 25.4 50.3)).
    intros H. vm_compute in H. discriminate H.
Defined.

(** ** Layer 3: Public Debt Health *)

Lemma trend_adjustment_stable : Py.get trend_adjustments "stable" 0.0 = 0.0.
Proof. reflexivity. Qed.

Lemma trend_adjustment_default (t : string) :
  t <> "improving" -> t <> "stable" -> t <> "declining" ->
  Py.get trend_adjustments t 0.0 = 0.0.
Proof.
  intros Hi Hs Hd. unfold Py.get, trend_adjustments.
  rewrite !lookup_insert_ne by congruence.
  rewrite lookup_singleton_ne by congruence. reflexivity.
Qed.

(** C6.  A trend string other than improving, stable and declining gives
    the same Layer 3 score as the trend stable. *)
Theorem layer3_unrecognized_trend_is_stable
    (debt_to_gdp debt_service_to_revenue : Q) (t : string) :
  t <> "improving" -> t <> "stable" -> t <> "declining" ->
  calculate_layer3_debt_health debt_to_gdp debt_service_to_revenue t
  = calculate_layer3_debt_health debt_to_gdp debt_service_to_revenue "stable".
Proof.
  intros Hi Hs Hd. unfold calculate_layer3_debt_health.
  rewrite trend_adjustment_stable, trend_adjustment_default by assumption.
  reflexivity.
Qed.

Lemma layer3_unrecognized_trend_is_stable_witness :
  calculate_layer3_debt_health 81.8 20.6 "unknown"
  = calculate_layer3_debt_health 81.8 20.6 "stable".
Proof.
  apply (layer3_unrecognized_trend_is_stable 81.8 20.6 "unknown");
    discriminate.
Defined.

(** C7.  The base score of Layer 3 never increases with debt/GDP, on each
    branch and across the branch boundaries at 60, 75 and 85. *)
Theorem layer3_base_score_antitone (d1 d2 : Q) :
  d1 <= d2 -> layer3_base_score d2 <= layer3_base_score d1.
Proof.
  intros Hle. unfold layer3_base_score. py_arith.
Qed.

Lemma layer3_base_score_antitone_witness :
  layer3_base_score 76 <= layer3_base_score 74.
Proof.
  apply (layer3_base_score_antitone 74 76). vm_compute. discriminate.
Defined.

(** ** Layer 7: Climate & Resilience *)

Lemma layer7_budget_score_slope (x y : Q) :
  x <= y ->
  0 <= layer7_budget_score y - layer7_budget_score x <= 2 * (y - x).
Proof.
  intros Hle. unfold layer7_budget_score. py_arith.
Qed.

(** C8.  The budget sub-score of Layer 7 takes the values 1, 2 and 4 at the
    breakpoints 0.5, 1.0 and 2.0, and two of its values never differ by more
    than twice the distance of their arguments: the score has no jump, at
    the breakpoints or elsewhere, so each branch formula meets the next one
    at the threshold between them. *)
Theorem layer7_budget_score_continuous :
  layer7_budget_score 0.5 == 1 /\
  layer7_budget_score 1.0 == 2 /\
  layer7_budget_score 2.0 == 4 /\
  forall x y : Q,
    Qabs (layer7_budget_score y - layer7_budget_score x) <= 2 * Qabs (y - x).
Proof.
  repeat (split; [reflexivity|]).
  intros x y. destruct (Qlt_le_dec y x) as [Hlt|Hle].
  - pose proof (layer7_budget_score_slope y x (Qlt_le_weak _ _ Hlt)) as [H0 H1].
    rewrite (Qabs_neg (y - x)) by lra.
    rewrite Qabs_neg by lra. lra.
  - pose proof (layer7_budget_score_slope x y Hle) as [H0 H1].
    rewrite (Qabs_pos (y - x)) by lra.
    rewrite Qabs_pos by lra. lra.
Qed.

(** ** The weights *)

(** The names of the nine layers, in the order of the source. *)
Lemma LAYER_WEIGHTS_lookups :
  LAYER_WEIGHTS !! "fiscal_transparency" = Some 0.12 /\
  LAYER_WEIGHTS !! "revenue_stability" = Some 0.14 /\
  LAYER_WEIGHTS !! "debt_health" = Some 0.15 /\
  LAYER_WEIGHTS !! "expenditure_efficiency" = Some 0.13 /\
  LAYER_WEIGHTS !! "private_sector" = Some 0.11 /\
  LAYER_WEIGHTS !! "trade_integration" = Some 0.10 /\
  LAYER_WEIGHTS !! "climate_resilience" = Some 0.08 /\
  LAYER_WEIGHTS !! "digital_readiness" = Some 0.09 /\
  LAYER_WEIGHTS !! "human_impact" = Some 0.08.
Proof. repeat split; reflexivity. Qed.

(** C5.  [LAYER_WEIGHTS] has exactly nine keys, the nine layer names; every
    weight lies strictly between 0 and 1; and the weights, as exact
    rationals, sum to 1. *)
Theorem LAYER_WEIGHTS_nine_weights_sum_to_one :
  size LAYER_WEIGHTS = 9%nat /\
  dom LAYER_WEIGHTS
  = ({[ "fiscal_transparency"; "revenue_stability"; "debt_health";
        "expenditure_efficiency"; "private_sector"; "trade_integration";
        "climate_resilience"; "digital_readiness"; "human_impact" ]}
     : gset string) /\
  map_Forall (fun _ w => 0 < w /\ w < 1) LAYER_WEIGHTS /\
  map_fold (fun _ w acc => w + acc) 0 LAYER_WEIGHTS == 1 /\
  0.12 + 0.14 + 0.15 + 0.13 + 0.11 + 0.10 + 0.08 + 0.09 + 0.08 == 1.
Proof.
  split; [reflexivity|]. split; [vm_compute; reflexivity|].
  split; [|split; reflexivity].
  unfold LAYER_WEIGHTS.
  repeat (apply map_Forall_insert_2; [split; reflexivity|]).
  apply map_Forall_empty.
Qed.

(** * Further properties of the scorers *)

(** ** The clamp and the caps *)

(** Splitting conjunctions and equivalences, and nothing else. *)
Ltac conj_split :=
  repeat match goal with
  | |- _ /\ _ => split
  | |- _ <-> _ => split
  end.

Lemma clamp_monotone (x y : Q) :
  x <= y -> Py.max 0.0 (Py.min 10.0 x) <= Py.max 0.0 (Py.min 10.0 y).
Proof. intros H. py_arith. Qed.

Lemma clamp_slope (x y : Q) :
  x <= y -> Py.max 0.0 (Py.min 10.0 y) - Py.max 0.0 (Py.min 10.0 x) <= y - x.
Proof. intros H. py_arith. Qed.

Lemma clamp_congr (x y : Q) :
  x == y -> Py.max 0.0 (Py.min 10.0 x) == Py.max 0.0 (Py.min 10.0 y).
Proof. intros H. py_arith. Qed.

Lemma clamp_ten_iff (x : Q) : Py.max 0.0 (Py.min 10.0 x) == 10 <-> 10 <= x.
Proof. split; intros H; revert H; py_arith. Qed.

Lemma clamp_zero (x : Q) : x <= 0 -> Py.max 0.0 (Py.min 10.0 x) == 0.
Proof. intros H. py_arith. Qed.

Lemma clamp_le (x b : Q) :
  0 <= b -> x <= b -> Py.max 0.0 (Py.min 10.0 x) <= b.
Proof. intros Hb H. py_arith. Qed.

Lemma clamp_ge (x b : Q) :
  b <= 10 -> b <= x -> b <= Py.max 0.0 (Py.min 10.0 x).
Proof. intros Hb H. py_arith. Qed.

(** A component [min(x, cap)]: monotone, at most the cap, and at the cap
    exactly from [x = cap] on. *)
Lemma cap_monotone (x y cap : Q) : x <= y -> Py.min x cap <= Py.min y cap.
Proof. intros H. py_arith. Qed.

Lemma cap_le (x cap : Q) : Py.min x cap <= cap.
Proof. py_arith. Qed.

Lemma cap_reached_iff (x cap : Q) : cap <= Py.min x cap <-> cap <= x.
Proof. split; intros H; revert H; py_arith. Qed.

Lemma cap_inside (x cap : Q) : x <= cap -> Py.min x cap == x.
Proof. intros H. py_arith. Qed.

Lemma cap_beyond (x cap : Q) : cap <= x -> Py.min x cap == cap.
Proof. intros H. py_arith. Qed.

(** ** Layer 1: Fiscal Transparency *)

Lemma inject_Z_nonneg (z : Z) : (0 <= z)%Z -> 0 <= inject_Z z.
Proof. intros H. change 0 with (inject_Z 0). rewrite <- Zle_Qle. exact H. Qed.

Lemma inject_Z_le (a b : Z) : (a <= b)%Z -> inject_Z a <= inject_Z b.
Proof. intros H. rewrite <- Zle_Qle. exact H. Qed.

(** The conversion of line 94 ([audit_delay_years * 1.0]): it returns inside
    the range of the doubles and raises [OverflowError] outside it. *)
Lemma int_to_float_in_range (n : Z) :
  (Z.abs n < Py.float_overflow_bound)%Z -> Py.int_to_float n = Ok (inject_Z n).
Proof.
  intros H. unfold Py.int_to_float.
  destruct (Z.leb_spec Py.float_overflow_bound (Z.abs n)) as [Hle|_];
    [lia|reflexivity].
Qed.

Lemma int_to_float_overflow (n : Z) :
  (Py.float_overflow_bound <= Z.abs n)%Z ->
  Py.int_to_float n = Raise OverflowError.
Proof.
  intros H. unfold Py.int_to_float.
  destruct (Z.leb_spec Py.float_overflow_bound (Z.abs n)) as [_|Hlt];
    [reflexivity|lia].
Qed.

Lemma float_overflow_bound_positive : (0 < Py.float_overflow_bound)%Z.
Proof. reflexivity. Qed.

Lemma layer1_in_range (on_time : bool) (delay : Z) :
  (Z.abs delay < Py.float_overflow_bound)%Z ->
  calculate_layer1_fiscal_transparency on_time delay
  = Ok (Py.max 0.0 (Py.min 10.0
          ((if on_time then 5.0 + 5.0 else 5.0)
           - Py.min (inject_Z delay * 1.0) 4.0))).
Proof.
  intros H. unfold calculate_layer1_fiscal_transparency.
  rewrite (int_to_float_in_range delay H). reflexivity.
Qed.

Lemma layer1_overflow (on_time : bool) (delay : Z) :
  (Py.float_overflow_bound <= Z.abs delay)%Z ->
  calculate_layer1_fiscal_transparency on_time delay = Raise OverflowError.
Proof.
  intros H. unfold calculate_layer1_fiscal_transparency.
  rewrite (int_to_float_overflow delay H). reflexivity.
Qed.

(** X2.  For a non-negative audit delay that a double can hold, Layer 1
    returns the base (10 when the budget was on time, 5 otherwise) minus the
    delay capped at 4: the final clamp never acts, and the score is at
    least 1.  For a delay of [2^1024 - 2^970] or more the conversion to a
    double fails and Layer 1 raises [OverflowError]. *)
Theorem layer1_nonnegative_delay (on_time : bool) (delay : Z) :
  ((0 <= delay < Py.float_overflow_bound)%Z ->
   exists v : Q,
     calculate_layer1_fiscal_transparency on_time delay = Ok v /\
     v == (if on_time then 10 else 5) - inject_Z (Z.min delay 4) /\
     1 <= v) /\
  ((Py.float_overflow_bound <= delay)%Z ->
   calculate_layer1_fiscal_transparency on_time delay = Raise OverflowError).
Proof.
  split.
  - intros [Hd Hb]. pose proof (inject_Z_nonneg delay Hd) as Hq.
    eexists. split; [apply layer1_in_range; lia|].
    assert (Hmin : inject_Z (Z.min delay 4)
                   == Py.min (inject_Z delay * 1.0) 4.0).
    { destruct (Z.min_spec delay 4) as [[Hlt ->]|[Hge ->]].
      - pose proof (inject_Z_le delay 4 (Z.lt_le_incl _ _ Hlt)) as H4.
        change (inject_Z 4) with 4 in H4. py_arith.
      - pose proof (inject_Z_le 4 delay Hge) as H4.
        change (inject_Z 4) with 4 in *. py_arith. }
    assert (Hcap : 0 <= Py.min (inject_Z delay * 1.0) 4.0 <= 4) by py_arith.
    rewrite Hmin.
    set (pen := Py.min (inject_Z delay * 1.0) 4.0) in *.
    destruct on_time; split.
    + rewrite clamp_inside; lra.
    + rewrite clamp_inside; lra.
    + rewrite clamp_inside; lra.
    + rewrite clamp_inside; lra.
  - intros Hb. apply layer1_overflow. lia.
Qed.

Lemma layer1_nonnegative_delay_witness :
  (exists v : Q,
     calculate_layer1_fiscal_transparency true 2 = Ok v /\
     v == 10 - inject_Z (Z.min 2 4) /\ 1 <= v) /\
  calculate_layer1_fiscal_transparency true (10 ^ 309) = Raise OverflowError.
Proof.
  split.
  - apply (layer1_nonnegative_delay true 2). split; [lia|reflexivity].
  - apply (layer1_nonnegative_delay true (10 ^ 309)).
    intros Hlt. vm_compute in Hlt. discriminate.
Defined.

(** X3.  Among audit delays that a double can hold, a longer delay never
    raises the Layer 1 score, and a budget published on time never scores
    below a late one with the same delay. *)
Theorem layer1_antitone_in_delay (on_time : bool) (d1 d2 : Z) :
  (d1 <= d2)%Z ->
  (Z.abs d1 < Py.float_overflow_bound)%Z ->
  (Z.abs d2 < Py.float_overflow_bound)%Z ->
  exists v1 v2 late ontime : Q,
    calculate_layer1_fiscal_transparency on_time d1 = Ok v1 /\
    calculate_layer1_fiscal_transparency on_time d2 = Ok v2 /\
    calculate_layer1_fiscal_transparency false d1 = Ok late /\
    calculate_layer1_fiscal_transparency true d1 = Ok ontime /\
    v2 <= v1 /\ late <= ontime.
Proof.
  intros Hle H1 H2. pose proof (inject_Z_le d1 d2 Hle) as Hq.
  do 4 eexists.
  split; [apply layer1_in_range; exact H1|].
  split; [apply layer1_in_range; exact H2|].
  split; [apply layer1_in_range; exact H1|].
  split; [apply layer1_in_range; exact H1|].
  assert (Hpen : Py.min (inject_Z d1 * 1.0) 4.0
                 <= Py.min (inject_Z d2 * 1.0) 4.0).
  { apply cap_monotone. lra. }
  set (p1 := Py.min (inject_Z d1 * 1.0) 4.0) in *.
  set (p2 := Py.min (inject_Z d2 * 1.0) 4.0) in *.
  split.
  - apply clamp_monotone. destruct on_time; lra.
  - apply clamp_monotone. lra.
Qed.

Lemma layer1_antitone_in_delay_witness :
  exists v1 v2 late ontime : Q,
    calculate_layer1_fiscal_transparency true 1 = Ok v1 /\
    calculate_layer1_fiscal_transparency true 3 = Ok v2 /\
    calculate_layer1_fiscal_transparency false 1 = Ok late /\
    calculate_layer1_fiscal_transparency true 1 = Ok ontime /\
    v2 <= v1 /\ late <= ontime.
Proof.
  apply (layer1_antitone_in_delay true 1 3); [lia|reflexivity|reflexivity].
Defined.

(** X4.  A negative audit delay is not rejected: it is subtracted like any
    other, so it adds to the score.  For a delay [d < 0] that a double can
    hold, a late budget scores [min(10, 5 - d)], that is [5 - d] down to
    [d = -5] and 10 below it, above the 5 of a zero delay; a budget on time
    scores 10. *)
Theorem layer1_negative_delay_is_bonus (delay : Z) :
  (- Py.float_overflow_bound < delay < 0)%Z ->
  exists late ontime : Q,
    calculate_layer1_fiscal_transparency false delay = Ok late /\
    calculate_layer1_fiscal_transparency true delay = Ok ontime /\
    5 < late /\
    ((-5 <= delay)%Z -> late == 5 - inject_Z delay) /\
    ((delay <= -5)%Z -> late == 10) /\
    ontime == 10.
Proof.
  intros [Hb Hd].
  assert (Hq : inject_Z delay <= -1).
  { change (-1) with (inject_Z (-1)). apply inject_Z_le. lia. }
  do 2 eexists.
  split; [apply layer1_in_range; lia|].
  split; [apply layer1_in_range; lia|].
  assert (Hpen : Py.min (inject_Z delay * 1.0) 4.0 == inject_Z delay * 1.0)
    by (apply cap_inside; lra).
  set (pen := Py.min (inject_Z delay * 1.0) 4.0) in *.
  split; [|split; [|split]].
  - apply Qlt_le_trans with (y := 6); [reflexivity|].
    apply clamp_ge; lra.
  - intros H5.
    assert (H5q : -5 <= inject_Z delay).
    { change (-5) with (inject_Z (-5)). apply inject_Z_le. exact H5. }
    rewrite clamp_inside; lra.
  - intros H5.
    assert (H5q : inject_Z delay <= -5).
    { change (-5) with (inject_Z (-5)). apply inject_Z_le. exact H5. }
    apply clamp_above. lra.
  - apply clamp_above. lra.
Qed.

Lemma layer1_negative_delay_is_bonus_witness :
  exists late ontime : Q,
    calculate_layer1_fiscal_transparency false (-3) = Ok late /\
    calculate_layer1_fiscal_transparency true (-3) = Ok ontime /\
    5 < late /\
    ((-5 <= -3)%Z -> late == 5 - inject_Z (-3)) /\
    ((-3 <= -5)%Z -> late == 10) /\
    ontime == 10.
Proof.
  apply (layer1_negative_delay_is_bonus (-3)). split; reflexivity.
Defined.

(** ** Layer 3: Public Debt Health *)

Lemma trend_adjustment_range (t : string) :
  -1 <= Py.get trend_adjustments t 0.0 <= 1.
Proof.
  destruct (decide (t = "improving")) as [->|Hi]; [split; discriminate|].
  destruct (decide (t = "stable")) as [->|Hs]; [split; discriminate|].
  destruct (decide (t = "declining")) as [->|Hd]; [split; discriminate|].
  rewrite trend_adjustment_default by assumption. split; discriminate.
Qed.

Lemma trend_adjustment_improving :
  Py.get trend_adjustments "improving" 0.0 = 1.0.
Proof. reflexivity. Qed.

Lemma trend_adjustment_declining :
  Py.get trend_adjustments "declining" 0.0 = -1.0.
Proof. reflexivity. Qed.

Lemma base_score_decreasing (d1 d2 : Q) :
  d1 <= d2 -> layer3_base_score d2 <= layer3_base_score d1.
Proof. intros H. unfold layer3_base_score. py_arith. Qed.

Lemma base_score_by_band (d : Q) :
  (d < 60 -> layer3_base_score d == 9) /\
  (60 <= d < 75 -> 5 < layer3_base_score d <= 7) /\
  (75 <= d < 85 -> 3 < layer3_base_score d <= 5) /\
  (85 <= d -> layer3_base_score d <= 2) /\
  (60 <= d -> layer3_base_score d <= 7) /\
  (75 <= d -> layer3_base_score d <= 5) /\
  (115 <= d -> layer3_base_score d <= -2).
Proof. unfold layer3_base_score. conj_split; intros; py_arith. Qed.

(** The debt-service adjustment of lines 151-155 moves the base score by
    at most 1 and keeps the order of two base scores. *)
Lemma service_adjustment (b1 b2 service : Q) :
  b1 <= b2 ->
  let adjust b := if service <? 15 then b + 1.0
                  else if service >? 20 then b - 1.0 else b in
  adjust b1 <= adjust b2 /\ b1 - 1 <= adjust b1 <= b1 + 1.
Proof. intros H adjust. unfold adjust. py_arith. Qed.

(** X5.  With the debt service and the trend held fixed, a higher debt/GDP
    never raises the Layer 3 score (adjustments and clamp included). *)
Theorem layer3_antitone_in_debt (d1 d2 service : Q) (trend : string) :
  d1 <= d2 ->
  calculate_layer3_debt_health d2 service trend
  <= calculate_layer3_debt_health d1 service trend.
Proof.
  intros Hle. unfold calculate_layer3_debt_health. cbv zeta.
  pose proof (base_score_decreasing d1 d2 Hle) as Hb.
  destruct (service_adjustment _ _ service Hb) as [Hadj _].
  apply clamp_monotone. lra.
Qed.

Lemma layer3_antitone_in_debt_witness :
  calculate_layer3_debt_health 90 18 "stable"
  <= calculate_layer3_debt_health 70 18 "stable".
Proof.
  apply (layer3_antitone_in_debt 70 90 18 "stable"). vm_compute. discriminate.
Defined.

(** X6.  The base score by debt band: 9 below 60 and 7 at 60; in (5, 7] on
    [60, 75); in (3, 5] on [75, 85); 2 at 85 and at most 2 beyond.  So the
    score at 60 is 2 below the score of any smaller ratio, and the score
    at 85 is more than 1 below the score of any ratio in [75, 85). *)
Theorem layer3_base_score_bands (d : Q) :
  (d < 60 -> layer3_base_score d == 9) /\
  layer3_base_score 60 == 7 /\
  (d < 60 -> layer3_base_score d - layer3_base_score 60 == 2) /\
  (60 <= d < 75 -> 5 < layer3_base_score d <= 7) /\
  (75 <= d < 85 -> 3 < layer3_base_score d <= 5) /\
  layer3_base_score 85 == 2 /\
  (75 <= d < 85 -> 1 < layer3_base_score d - layer3_base_score 85) /\
  (85 <= d -> layer3_base_score d <= 2).
Proof.
  pose proof (base_score_by_band d) as (H1 & H2 & H3 & H4 & _).
  assert (E60 : layer3_base_score 60 == 7) by reflexivity.
  assert (E85 : layer3_base_score 85 == 2) by reflexivity.
  conj_split.
  - exact H1.
  - exact E60.
  - intros H. specialize (H1 H). lra.
  - exact H2.
  - exact H3.
  - exact E85.
  - intros H. specialize (H3 H). lra.
  - exact H4.
Qed.

Lemma layer3_base_score_bands_witness :
  layer3_base_score 40 == 9 /\
  layer3_base_score 40 - layer3_base_score 60 == 2 /\
  5 < layer3_base_score 70 <= 7 /\
  3 < layer3_base_score 80 <= 5 /\
  1 < layer3_base_score 80 - layer3_base_score 85 /\
  layer3_base_score 90 <= 2.
Proof.
  split; [|split; [|split; [|split; [|split]]]].
  - apply (layer3_base_score_bands 40). reflexivity.
  - apply (layer3_base_score_bands 40). reflexivity.
  - apply (layer3_base_score_bands 70). split; [discriminate|reflexivity].
  - apply (layer3_base_score_bands 80). split; [discriminate|reflexivity].
  - apply (layer3_base_score_bands 80). split; [discriminate|reflexivity].
  - apply (layer3_base_score_bands 90). discriminate.
Defined.

(** X7.  For every trend string, recognized or not, the Layer 3 score lies
    between the score with the trend declining and the score with the trend
    improving. *)
Theorem layer3_trend_order (debt service : Q) (trend : string) :
  calculate_layer3_debt_health debt service "declining"
  <= calculate_layer3_debt_health debt service trend /\
  calculate_layer3_debt_health debt service trend
  <= calculate_layer3_debt_health debt service "improving".
Proof.
  unfold calculate_layer3_debt_health. cbv zeta.
  rewrite trend_adjustment_improving, trend_adjustment_declining.
  pose proof (trend_adjustment_range trend) as [Hlo Hhi].
  split; apply clamp_monotone; lra.
Qed.

(** X8.  Debt/GDP caps the Layer 3 score whatever the debt service and the
    trend: at most 9 from 60 on, at most 7 from 75 on, at most 4 from 85
    on, and exactly 0 from 115 on. *)
Theorem layer3_debt_caps (debt service : Q) (trend : string) :
  (60 <= debt -> calculate_layer3_debt_health debt service trend <= 9) /\
  (75 <= debt -> calculate_layer3_debt_health debt service trend <= 7) /\
  (85 <= debt -> calculate_layer3_debt_health debt service trend <= 4) /\
  (115 <= debt -> calculate_layer3_debt_health debt service trend == 0).
Proof.
  unfold calculate_layer3_debt_health. cbv zeta.
  pose proof (trend_adjustment_range trend) as [Hlo Hhi].
  pose proof (base_score_by_band debt) as (_ & _ & _ & B85 & B60 & B75 & B115).
  destruct (service_adjustment _ _ service (Qle_refl (layer3_base_score debt)))
    as [_ [Ha Hb]].
  repeat split; intros Hd.
  - apply clamp_le; [lra|]. specialize (B60 Hd). lra.
  - apply clamp_le; [lra|]. specialize (B75 Hd). lra.
  - apply clamp_le; [lra|]. specialize (B85 Hd). lra.
  - apply clamp_zero. specialize (B115 Hd). lra.
Qed.

Lemma layer3_debt_caps_witness :
  calculate_layer3_debt_health 60 10 "improving" <= 9 /\
  calculate_layer3_debt_health 75 10 "improving" <= 7 /\
  calculate_layer3_debt_health 85 10 "improving" <= 4 /\
  calculate_layer3_debt_health 115 10 "improving" == 0.
Proof.
  split; [|split; [|split]].
  - apply (layer3_debt_caps 60 10 "improving"). discriminate.
  - apply (layer3_debt_caps 75 10 "improving"). discriminate.
  - apply (layer3_debt_caps 85 10 "improving"). discriminate.
  - apply (layer3_debt_caps 115 10 "improving"). discriminate.
Defined.

(** ** Layer 4: Expenditure Efficiency *)

Lemma ratio_times_divisor (p c : Q) : 0 < c -> p / c * c == p.
Proof. intros Hc. field. lra. Qed.

Lemma ratio_nonneg (p c : Q) : 0 < c -> 0 <= p -> 0 <= p / c.
Proof.
  intros Hc Hp. apply Qle_shift_div_l; [exact Hc|]. lra.
Qed.

(** X9.  With a positive consumption share the Layer 4 score is 0 for a
    non-positive productive share, five times the ratio while the productive
    share is at most twice the consumption share, and 10 beyond.  The score
    is thus 10 for every consumption share in (0, productive / 2], however
    small, and 0 at a consumption share of exactly 0. *)
Theorem layer4_positive_consumption (productive consumption : Q) :
  0 < consumption ->
  exists v : Q,
    calculate_layer4_expenditure_efficiency productive consumption = Ok v /\
    (productive <= 0 -> v == 0) /\
    (0 <= productive -> productive <= 2 * consumption ->
     v == productive / consumption * 5) /\
    (2 * consumption <= productive -> v == 10).
Proof.
  intros Hc. eexists. split.
  - apply layer4_nonzero_consumption. lra.
  - pose proof (ratio_times_divisor productive consumption Hc) as Hr.
    set (r := productive / consumption) in *.
    repeat split.
    + intros Hp.
      assert (r <= 0).
      { apply Qle_shift_div_r; [exact Hc|]. lra. }
      py_arith.
    + intros Hp0 Hp2.
      assert (0 <= r) by (apply Qle_shift_div_l; [exact Hc|lra]).
      assert (r <= 2) by (apply Qle_shift_div_r; [exact Hc|lra]).
      rewrite clamp_inside; lra.
    + intros Hp.
      assert (2 <= r) by (apply Qle_shift_div_l; [exact Hc|lra]).
      apply clamp_above. lra.
Qed.

Lemma layer4_positive_consumption_witness :
  exists v : Q,
    calculate_layer4_expenditure_efficiency 25.4 50.3 = Ok v /\
    (25.4 <= 0 -> v == 0) /\
    (0 <= 25.4 -> 25.4 <= 2 * 50.3 -> v == 25.4 / 50.3 * 5) /\
    (2 * 50.3 <= 25.4 -> v == 10).
Proof. apply (layer4_positive_consumption 25.4 50.3). reflexivity. Defined.

(** X10.  Among positive consumption shares and non-negative productive
    shares, a record with no less productive spending and no more
    consumption spending never scores lower on Layer 4. *)
Theorem layer4_monotone (p1 p2 c1 c2 : Q) :
  0 < c1 -> c1 <= c2 -> 0 <= p1 -> p1 <= p2 ->
  exists v_low v_high : Q,
    calculate_layer4_expenditure_efficiency p1 c2 = Ok v_low /\
    calculate_layer4_expenditure_efficiency p2 c1 = Ok v_high /\
    v_low <= v_high.
Proof.
  intros Hc1 Hc Hp1 Hp.
  assert (Hc2 : 0 < c2) by lra.
  do 2 eexists. split; [apply layer4_nonzero_consumption; lra|].
  split; [apply layer4_nonzero_consumption; lra|].
  assert (Hr : p1 / c2 <= p2 / c1).
  { apply Qle_shift_div_l; [exact Hc1|].
    pose proof (ratio_nonneg p1 c2 Hc2 Hp1) as Hnn.
    pose proof (ratio_times_divisor p1 c2 Hc2) as Heq.
    assert (p1 / c2 * c1 <= p1 / c2 * c2).
    { rewrite !(Qmult_comm (p1 / c2)).
      apply Qmult_le_compat_r; assumption. }
    lra. }
  set (r1 := p1 / c2) in *. set (r2 := p2 / c1) in *. py_arith.
Qed.

Lemma layer4_monotone_witness :
  exists v_low v_high : Q,
    calculate_layer4_expenditure_efficiency 20 60 = Ok v_low /\
    calculate_layer4_expenditure_efficiency 30 50 = Ok v_high /\
    v_low <= v_high.
Proof.
  apply (layer4_monotone 20 30 50 60); vm_compute; discriminate || reflexivity.
Defined.

(** ** Layer 5: Private Sector Climate *)

(** The ease-of-business step of lines 201-209. *)
Lemma eob_step (r1 r2 : Z) :
  (r1 <= r2)%Z ->
  let step (r : Z) : Q :=
    if (r <=? 50)%Z then 4.0
    else if (r <=? 100)%Z then 3.0
    else if (r <=? 150)%Z then 2.0
    else 1.0 in
  step r2 <= step r1 /\ 1 <= step r1 <= 4 /\
  (4 <= step r1 <-> (r1 <= 50)%Z) /\
  ((r1 <= 50)%Z -> step r1 = 4.0).
Proof.
  intros Hr step. unfold step.
  destruct (Z.leb_spec r1 50), (Z.leb_spec r1 100), (Z.leb_spec r1 150),
    (Z.leb_spec r2 50), (Z.leb_spec r2 100), (Z.leb_spec r2 150);
    try lia; repeat split; intros; try lia; try lra; try discriminate;
    try reflexivity.
Qed.

Lemma div_monotone (x y c : Q) : 0 < c -> x <= y -> x / c <= y / c.
Proof.
  intros Hc Hxy. unfold Qdiv. apply Qmult_le_compat_r; [exact Hxy|].
  apply Qlt_le_weak, Qinv_lt_0_compat, Hc.
Qed.

Lemma eob_step_below (r : Z) :
  (50 < r)%Z ->
  (if (r <=? 50)%Z then 4.0
   else if (r <=? 100)%Z then 3.0
   else if (r <=? 150)%Z then 2.0
   else 1.0) <= 3.
Proof.
  intros Hr.
  destruct (Z.leb_spec r 50), (Z.leb_spec r 100), (Z.leb_spec r 150);
    try lia; discriminate.
Qed.

(** X11.  Layer 5 returns 10 whenever the rank is at most 50, the SME
    delivery rate is at least 100 and the forex access score is at least
    10; with a rank above 50 it returns at most 9, whatever the two other
    inputs: each component is capped, so none can make up for the rank. *)
Theorem layer5_full_marks (rank : Z) (sme forex : Q) :
  ((rank <= 50)%Z -> 100 <= sme -> 10 <= forex ->
   calculate_layer5_private_sector rank sme forex == 10) /\
  ((50 < rank)%Z ->
   calculate_layer5_private_sector rank sme forex <= 9).
Proof.
  unfold calculate_layer5_private_sector. cbv zeta.
  pose proof (cap_le (sme / 25) 4.0) as Hs.
  pose proof (cap_le (forex / 5) 2.0) as Hf.
  split.
  - intros Hr Hsme Hfx.
    destruct (eob_step rank rank (Z.le_refl _)) as (_ & _ & _ & E4).
    cbv beta in E4. rewrite (E4 Hr).
    assert (H4 : 4.0 <= Py.min (sme / 25) 4.0)
      by (apply cap_reached_iff; qinv_consts; lra).
    assert (H2 : 2.0 <= Py.min (forex / 5) 2.0)
      by (apply cap_reached_iff; qinv_consts; lra).
    apply clamp_above. lra.
  - intros Hr. pose proof (eob_step_below rank Hr) as E3.
    apply clamp_le; lra.
Qed.

Lemma layer5_full_marks_witness :
  calculate_layer5_private_sector 40 100 10 == 10 /\
  calculate_layer5_private_sector 51 100 10 <= 9.
Proof.
  split.
  - apply (layer5_full_marks 40 100 10); [lia|discriminate|discriminate].
  - apply (layer5_full_marks 51 100 10). lia.
Defined.

(** X12.  A better (smaller) rank, a higher SME delivery rate and a higher
    forex access score never lower the Layer 5 score. *)
Theorem layer5_monotone (r1 r2 : Z) (s1 s2 f1 f2 : Q) :
  (r1 <= r2)%Z -> s1 <= s2 -> f1 <= f2 ->
  calculate_layer5_private_sector r2 s1 f1
  <= calculate_layer5_private_sector r1 s2 f2.
Proof.
  intros Hr Hs Hf. unfold calculate_layer5_private_sector. cbv zeta.
  destruct (eob_step r1 r2 Hr) as (He & _).
  apply clamp_monotone. repeat apply Qplus_le_compat.
  - exact He.
  - apply cap_monotone, div_monotone; [reflexivity|exact Hs].
  - apply cap_monotone, div_monotone; [reflexivity|exact Hf].
Qed.

Lemma layer5_monotone_witness :
  calculate_layer5_private_sector 105 28.0 4.0
  <= calculate_layer5_private_sector 40 50.0 6.0.
Proof.
  apply (layer5_monotone 40 105 28.0 50.0 4.0 6.0);
    [lia | discriminate | discriminate].
Defined.

(** X13.  For a non-negative SME delivery rate and forex access score the
    Layer 5 score is at least 1, whatever the rank: the rank step gives 1
    even beyond rank 150, and a rank of 0 or below is taken as a top-50
    rank. *)
Theorem layer5_floor (rank : Z) (sme forex : Q) :
  0 <= sme -> 0 <= forex ->
  1 <= calculate_layer5_private_sector rank sme forex /\
  ((rank <= 0)%Z ->
   calculate_layer5_private_sector rank sme forex
   == calculate_layer5_private_sector 1 sme forex).
Proof.
  intros Hs Hf. unfold calculate_layer5_private_sector. cbv zeta.
  destruct (eob_step rank rank (Z.le_refl _)) as (_ & [E1 E4] & _ & Etop).
  split.
  - assert (0 <= Py.min (sme / 25) 4.0) by py_arith.
    assert (0 <= Py.min (forex / 5) 2.0) by py_arith.
    apply clamp_ge; lra.
  - intros Hr. rewrite Etop by lia. reflexivity.
Qed.

Lemma layer5_floor_witness :
  1 <= calculate_layer5_private_sector 500 0 0 /\
  ((500 <= 0)%Z ->
   calculate_layer5_private_sector 500 0 0
   == calculate_layer5_private_sector 1 0 0).
Proof. apply (layer5_floor 500 0 0); discriminate. Defined.

(** ** Layer 6: Trade & Integration *)

(** The export-growth component of lines 235-243. *)
Lemma growth_component (g1 g2 : Q) :
  g1 <= g2 ->
  let growth_score (g : Q) : Q :=
    if g >=? 10 then 4.0
    else if g >=? 5 then 2.0 + (g - 5) / 5 * 2
    else if g >=? 0 then g / 5 * 2
    else 0.0 in
  growth_score g1 <= growth_score g2 /\
  growth_score g2 - growth_score g1 <= 0.4 * (g2 - g1) /\
  0 <= growth_score g1 <= 4 /\
  (4 <= growth_score g1 <-> 10 <= g1) /\
  (g1 <= 0 -> growth_score g1 == 0) /\
  (10 <= g1 -> growth_score g1 == 4).
Proof.
  intros Hg growth_score. unfold growth_score.
  conj_split; py_arith.
Qed.

(** X14.  Higher export growth, a higher CARICOM integration score and a
    lower concentration index never lower the Layer 6 score. *)
Theorem layer6_monotone (g1 g2 c1 c2 i1 i2 : Q) :
  g1 <= g2 -> c1 <= c2 -> i2 <= i1 ->
  calculate_layer6_trade_integration g1 c1 i1
  <= calculate_layer6_trade_integration g2 c2 i2.
Proof.
  intros Hg Hc Hi. unfold calculate_layer6_trade_integration. cbv zeta.
  destruct (growth_component g1 g2 Hg) as (Hmono & _).
  apply clamp_monotone. repeat apply Qplus_le_compat.
  - exact Hmono.
  - apply cap_monotone, div_monotone; [reflexivity|exact Hc].
  - lra.
Qed.

Lemma layer6_monotone_witness :
  calculate_layer6_trade_integration (-6.0) 5.2 0.78
  <= calculate_layer6_trade_integration 4.0 6.0 0.5.
Proof.
  apply (layer6_monotone (-6.0) 4.0 5.2 6.0 0.78 0.5); discriminate.
Defined.

(** X15.  The Layer 6 score has no jump in the export growth.  For a
    CARICOM integration score in [0, 10] and a concentration index in
    [0, 1], the score rises between two growth values by at most 0.4 times
    their distance, across the thresholds 0, 5 and 10 as well; the bound is
    stated with an allowance of one billionth, far above the rounding of
    the few operations on doubles and far below any step of the score. *)
Theorem layer6_growth_slope (g1 g2 caricom index : Q) :
  g1 <= g2 ->
  0 <= caricom <= 10 ->
  0 <= index <= 1 ->
  calculate_layer6_trade_integration g2 caricom index
  - calculate_layer6_trade_integration g1 caricom index
  <= 0.4 * (g2 - g1) + 0.000000001.
Proof.
  intros Hg _ _. unfold calculate_layer6_trade_integration. cbv zeta.
  destruct (growth_component g1 g2 Hg) as (Hmono & Hslope & _).
  cbv beta in Hmono, Hslope.
  match goal with
  | |- Py.max _ (Py.min _ ?y) - Py.max _ (Py.min _ ?x) <= _ =>
      assert (Hxy : x <= y) by lra;
      pose proof (clamp_slope x y Hxy) as Hcl
  end.
  lra.
Qed.

Lemma layer6_growth_slope_witness :
  calculate_layer6_trade_integration 5.5 5.2 0.78
  - calculate_layer6_trade_integration 4.5 5.2 0.78
  <= 0.4 * (5.5 - 4.5) + 0.000000001.
Proof.
  apply (layer6_growth_slope 4.5 5.5 5.2 0.78);
    [discriminate | split; discriminate | split; discriminate].
Defined.

(** X16.  Layer 6 saturates: an export growth below 0 scores like 0, one
    above 10 like 10, and a CARICOM integration score above 9.99 like
    9.99 (the cap 3.0 of [score / 3.33] is reached at 9.99, not at 10). *)
Theorem layer6_saturation (growth caricom index : Q) :
  (growth <= 0 ->
   calculate_layer6_trade_integration growth caricom index
   == calculate_layer6_trade_integration 0 caricom index) /\
  (10 <= growth ->
   calculate_layer6_trade_integration growth caricom index
   == calculate_layer6_trade_integration 10 caricom index) /\
  (9.99 <= caricom ->
   calculate_layer6_trade_integration growth caricom index
   == calculate_layer6_trade_integration growth 9.99 index).
Proof.
  unfold calculate_layer6_trade_integration. cbv zeta.
  destruct (growth_component growth growth (Qle_refl _))
    as (_ & _ & _ & _ & Hlow & Hhigh).
  destruct (growth_component 0 0 (Qle_refl _)) as (_ & _ & _ & _ & H0 & _).
  destruct (growth_component 10 10 (Qle_refl _))
    as (_ & _ & _ & _ & _ & H10).
  cbv beta in Hlow, Hhigh, H0, H10.
  repeat split; intros H; apply clamp_congr.
  - specialize (Hlow H). specialize (H0 (Qle_refl _)). lra.
  - specialize (Hhigh H). specialize (H10 (Qle_refl _)). lra.
  - assert (E1 : Py.min (caricom / 3.33) 3.0 == 3.0).
    { apply cap_beyond. apply Qle_shift_div_l; [reflexivity|]. lra. }
    assert (E2 : Py.min (9.99 / 3.33) 3.0 == 3.0) by reflexivity.
    lra.
Qed.

Lemma layer6_saturation_witness :
  calculate_layer6_trade_integration (-6.0) 5.2 0.78
  == calculate_layer6_trade_integration 0 5.2 0.78 /\
  calculate_layer6_trade_integration 12 5.2 0.78
  == calculate_layer6_trade_integration 10 5.2 0.78 /\
  calculate_layer6_trade_integration 3 10 0.78
  == calculate_layer6_trade_integration 3 9.99 0.78.
Proof.
  split; [|split].
  - apply (layer6_saturation (-6.0) 5.2 0.78). discriminate.
  - apply (layer6_saturation 12 5.2 0.78). discriminate.
  - apply (layer6_saturation 3 10 0.78). discriminate.
Defined.

(** X17.  Layer 6 returns 10 whenever the export growth is at least 10, the
    CARICOM integration score is at least 9.99 and the concentration index
    is 0; with an export growth of 0 or less and an index that is not
    negative it returns at most 6, whatever the CARICOM score. *)
Theorem layer6_full_marks (growth caricom index : Q) :
  (10 <= growth -> 9.99 <= caricom -> index == 0 ->
   calculate_layer6_trade_integration growth caricom index == 10) /\
  (growth <= 0 -> 0 <= index ->
   calculate_layer6_trade_integration growth caricom index <= 6).
Proof.
  unfold calculate_layer6_trade_integration. cbv zeta.
  destruct (growth_component growth growth (Qle_refl _))
    as (_ & _ & [G0 G4] & Giff & Glow & _).
  cbv beta in G0, G4, Giff, Glow.
  pose proof (cap_le (caricom / 3.33) 3.0) as Hc.
  split.
  - intros Hg Hcar H0.
    apply Giff in Hg.
    assert (H3 : 3.0 <= Py.min (caricom / 3.33) 3.0)
      by (apply cap_reached_iff; qinv_consts; lra).
    apply clamp_above. lra.
  - intros Hg Hi. specialize (Glow Hg).
    apply clamp_le; lra.
Qed.

Lemma layer6_full_marks_witness :
  calculate_layer6_trade_integration 10 10 0 == 10 /\
  calculate_layer6_trade_integration (-6.0) 10 0.78 <= 6.
Proof.
  split.
  - apply (layer6_full_marks 10 10 0); [discriminate|discriminate|reflexivity].
  - apply (layer6_full_marks (-6.0) 10 0.78); discriminate.
Defined.

(** ** Layer 7: Climate & Resilience *)

Lemma budget_component (b1 b2 : Q) :
  b1 <= b2 ->
  layer7_budget_score b1 <= layer7_budget_score b2 /\
  layer7_budget_score b1 <= 4 /\
  (4 <= layer7_budget_score b1 <-> 2 <= b1).
Proof. intros Hb. unfold layer7_budget_score. conj_split; py_arith. Qed.

(** The green-projects step of lines 279-287. *)
Lemma projects_step (n1 n2 : Z) :
  (n1 <= n2)%Z ->
  let step (n : Z) : Q :=
    if (n >=? 10)%Z then 3.0
    else if (n >=? 5)%Z then 2.0
    else if (n >=? 1)%Z then 1.0
    else 0.0 in
  step n1 <= step n2 /\ 0 <= step n1 <= 3 /\
  (3 <= step n1 <-> (10 <= n1)%Z).
Proof.
  intros Hn step. unfold step. rewrite !Z.geb_leb.
  destruct (Z.leb_spec 10 n1), (Z.leb_spec 5 n1), (Z.leb_spec 1 n1),
    (Z.leb_spec 10 n2), (Z.leb_spec 5 n2), (Z.leb_spec 1 n2);
    try lia; conj_split; intros; try lia; try lra; try discriminate.
Qed.

(** X18.  A higher climate budget, more green projects and a higher
    adaptation funding score never lower the Layer 7 score. *)
Theorem layer7_monotone (b1 b2 : Q) (n1 n2 : Z) (a1 a2 : Q) :
  b1 <= b2 -> (n1 <= n2)%Z -> a1 <= a2 ->
  calculate_layer7_climate_resilience b1 n1 a1
  <= calculate_layer7_climate_resilience b2 n2 a2.
Proof.
  intros Hb Hn Ha. unfold calculate_layer7_climate_resilience. cbv zeta.
  destruct (budget_component b1 b2 Hb) as (Hbs & _).
  destruct (projects_step n1 n2 Hn) as (Hps & _).
  apply clamp_monotone. repeat apply Qplus_le_compat.
  - exact Hbs.
  - exact Hps.
  - apply cap_monotone, div_monotone; [reflexivity|exact Ha].
Qed.

Lemma layer7_monotone_witness :
  calculate_layer7_climate_resilience 0.18 5 3.6
  <= calculate_layer7_climate_resilience 1.2 10 3.6.
Proof.
  apply (layer7_monotone 0.18 1.2 5 10 3.6 3.6);
    [discriminate | lia | discriminate].
Defined.

Lemma projects_step_below (n : Z) :
  (n < 10)%Z ->
  (if (n >=? 10)%Z then 3.0
   else if (n >=? 5)%Z then 2.0
   else if (n >=? 1)%Z then 1.0
   else 0.0) <= 2.
Proof.
  intros Hn. rewrite !Z.geb_leb.
  destruct (Z.leb_spec 10 n), (Z.leb_spec 5 n), (Z.leb_spec 1 n);
    try lia; discriminate.
Qed.

(** X19.  Layer 7 returns 10 whenever the climate budget is at least 2.0,
    there are at least 10 green projects and the adaptation funding score
    is at least 9.99; with fewer than 10 green projects it returns at most
    9, whatever the two other inputs. *)
Theorem layer7_full_marks (budget : Q) (projects : Z) (adaptation : Q) :
  (2 <= budget -> (10 <= projects)%Z -> 9.99 <= adaptation ->
   calculate_layer7_climate_resilience budget projects adaptation == 10) /\
  ((projects < 10)%Z ->
   calculate_layer7_climate_resilience budget projects adaptation <= 9).
Proof.
  unfold calculate_layer7_climate_resilience. cbv zeta.
  destruct (budget_component budget budget (Qle_refl _)) as (_ & B4 & Biff).
  destruct (projects_step projects projects (Z.le_refl _))
    as (_ & [P0 P3] & Piff).
  cbv beta in P0, P3, Piff.
  pose proof (cap_le (adaptation / 3.33) 3.0) as Ha.
  split.
  - intros Hb Hp Had.
    apply Biff in Hb. apply Piff in Hp.
    assert (H3 : 3.0 <= Py.min (adaptation / 3.33) 3.0)
      by (apply cap_reached_iff; qinv_consts; lra).
    apply clamp_above. lra.
  - intros Hp. pose proof (projects_step_below projects Hp) as P2.
    apply clamp_le; lra.
Qed.

Lemma layer7_full_marks_witness :
  calculate_layer7_climate_resilience 2 10 9.99 == 10 /\
  calculate_layer7_climate_resilience 2 9 9.99 <= 9.
Proof.
  split.
  - apply (layer7_full_marks 2 10 9.99); [discriminate|lia|discriminate].
  - apply (layer7_full_marks 2 9 9.99). lia.
Defined.

(** ** Layer 8: Digital Readiness *)

(** The ICT-budget component of lines 310-318. *)
Lemma ict_component (i1 i2 : Q) :
  i1 <= i2 ->
  let ict_score (i : Q) : Q :=
    if i >=? 2.0 then 3.0
    else if i >=? 1.0 then 2.0 + (i - 1.0)
    else if i >=? 0.5 then 1.0 + (i - 0.5) * 2
    else i / 0.5 in
  ict_score i1 <= ict_score i2 /\
  ict_score i2 - ict_score i1 <= 2 * (i2 - i1) /\
  ict_score i1 <= 3 /\
  (3 <= ict_score i1 <-> 2 <= i1).
Proof.
  intros Hi ict_score. unfold ict_score. conj_split; py_arith.
Qed.

(** The e-government component of lines 320-326. *)
Lemma egov_component (e1 e2 : Q) :
  e1 <= e2 ->
  let egov_score (e : Q) : Q :=
    if e >=? 50 then 4.0
    else if e >=? 25 then 2.0 + (e - 25) / 25 * 2
    else e / 25 * 2 in
  egov_score e1 <= egov_score e2 /\
  egov_score e2 - egov_score e1 <= 0.08 * (e2 - e1) /\
  egov_score e1 <= 4 /\
  (4 <= egov_score e1 <-> 50 <= e1).
Proof.
  intros He egov_score. unfold egov_score. conj_split; py_arith.
Qed.

(** X20.  A higher ICT budget share, a higher e-government adoption and a
    higher digital literacy score never lower the Layer 8 score. *)
Theorem layer8_monotone (i1 i2 e1 e2 l1 l2 : Q) :
  i1 <= i2 -> e1 <= e2 -> l1 <= l2 ->
  calculate_layer8_digital_readiness i1 e1 l1
  <= calculate_layer8_digital_readiness i2 e2 l2.
Proof.
  intros Hi He Hl. unfold calculate_layer8_digital_readiness. cbv zeta.
  destruct (ict_component i1 i2 Hi) as (Hict & _).
  destruct (egov_component e1 e2 He) as (Hegov & _).
  apply clamp_monotone. repeat apply Qplus_le_compat.
  - exact Hict.
  - exact Hegov.
  - apply cap_monotone, div_monotone; [reflexivity|exact Hl].
Qed.

Lemma layer8_monotone_witness :
  calculate_layer8_digital_readiness 0.9 32.0 5.1
  <= calculate_layer8_digital_readiness 1.5 40.0 5.1.
Proof.
  apply (layer8_monotone 0.9 1.5 32.0 40.0 5.1 5.1); discriminate.
Defined.

(** X21.  The Layer 8 score has no jump in the ICT budget share nor in the
    e-government adoption.  For shares and adoptions that are not negative
    and a literacy score in [0, 10] held fixed, the score rises by at most
    twice the increase of the ICT share plus 0.08 times the increase of
    the adoption, across the thresholds 0.5, 1.0, 2.0 and 25, 50 as well;
    the bound is stated with an allowance of one billionth, far above the
    rounding of the few operations on doubles and far below any step of
    the score. *)
Theorem layer8_slope (i1 i2 e1 e2 literacy : Q) :
  0 <= i1 <= i2 ->
  0 <= e1 <= e2 ->
  0 <= literacy <= 10 ->
  calculate_layer8_digital_readiness i2 e2 literacy
  - calculate_layer8_digital_readiness i1 e1 literacy
  <= 2 * (i2 - i1) + 0.08 * (e2 - e1) + 0.000000001.
Proof.
  intros [_ Hi] [_ He] _.
  unfold calculate_layer8_digital_readiness. cbv zeta.
  destruct (ict_component i1 i2 Hi) as (Hict & Hislope & _).
  destruct (egov_component e1 e2 He) as (Hegov & Heslope & _).
  cbv beta in Hict, Hislope, Hegov, Heslope.
  match goal with
  | |- Py.max _ (Py.min _ ?y) - Py.max _ (Py.min _ ?x) <= _ =>
      assert (Hxy : x <= y) by lra;
      pose proof (clamp_slope x y Hxy) as Hcl
  end.
  lra.
Qed.

Lemma layer8_slope_witness :
  calculate_layer8_digital_readiness 1.1 26 5.1
  - calculate_layer8_digital_readiness 0.9 24 5.1
  <= 2 * (1.1 - 0.9) + 0.08 * (26 - 24) + 0.000000001.
Proof.
  apply (layer8_slope 0.9 1.1 24 26 5.1); split; discriminate.
Defined.

Lemma egov_below (e : Q) :
  e < 25 ->
  (if e >=? 50 then 4.0
   else if e >=? 25 then 2.0 + (e - 25) / 25 * 2
   else e / 25 * 2) <= 2.
Proof. intros He. py_arith. Qed.

(** X22.  Layer 8 returns 10 whenever the ICT budget share is at least 2.0,
    the e-government adoption is at least 50 and the digital literacy score
    is at least 9.99; with an adoption below 25 it returns at most 8,
    whatever the two other inputs. *)
Theorem layer8_full_marks (ict egov literacy : Q) :
  (2 <= ict -> 50 <= egov -> 9.99 <= literacy ->
   calculate_layer8_digital_readiness ict egov literacy == 10) /\
  (egov < 25 ->
   calculate_layer8_digital_readiness ict egov literacy <= 8).
Proof.
  unfold calculate_layer8_digital_readiness. cbv zeta.
  destruct (ict_component ict ict (Qle_refl _)) as (_ & _ & I3 & Iiff).
  destruct (egov_component egov egov (Qle_refl _)) as (_ & _ & E4 & Eiff).
  cbv beta in I3, Iiff, E4, Eiff.
  pose proof (cap_le (literacy / 3.33) 3.0) as Hl.
  split.
  - intros Hi He Hlit.
    apply Iiff in Hi. apply Eiff in He.
    assert (H3 : 3.0 <= Py.min (literacy / 3.33) 3.0)
      by (apply cap_reached_iff; qinv_consts; lra).
    apply clamp_above. lra.
  - intros He. pose proof (egov_below egov He) as E2.
    apply clamp_le; lra.
Qed.

Lemma layer8_full_marks_witness :
  calculate_layer8_digital_readiness 2 50 9.99 == 10 /\
  calculate_layer8_digital_readiness 2 24 9.99 <= 8.
Proof.
  split.
  - apply (layer8_full_marks 2 50 9.99); discriminate.
  - apply (layer8_full_marks 2 24 9.99). reflexivity.
Defined.

(** ** Layer 9: Human Impact *)

(** The inflation step of lines 351-359, and the unemployment step of
    lines 361-369 with the thresholds 4, 6, 8. *)
Lemma descending_step (t1 t2 t3 x1 x2 : Q) :
  x2 <= x1 ->
  let step (x : Q) : Q :=
    if x <? t1 then 3.0
    else if x <? t2 then 2.0
    else if x <? t3 then 1.0
    else 0.0 in
  step x1 <= step x2 /\ step x1 <= 3 /\ (3 <= step x1 <-> x1 < t1).
Proof.
  intros Hx step. unfold step. conj_split; py_arith.
Qed.

(** The real-wage step of lines 371-377. *)
Lemma wage_step (w1 w2 : Q) :
  w1 <= w2 ->
  let step (w : Q) : Q :=
    if w >? 2 then 2.0 else if w >? 0 then 1.0 else 0.0 in
  step w1 <= step w2 /\ step w1 <= 2 /\ (2 <= step w1 <-> 2 < w1).
Proof.
  intros Hw step. unfold step. conj_split; py_arith.
Qed.

(** X23.  Lower inflation, lower unemployment, higher real wage growth and
    a higher food security score never lower the Layer 9 score. *)
Theorem layer9_monotone (i1 i2 u1 u2 w1 w2 f1 f2 : Q) :
  i2 <= i1 -> u2 <= u1 -> w1 <= w2 -> f1 <= f2 ->
  calculate_layer9_human_impact i1 u1 w1 f1
  <= calculate_layer9_human_impact i2 u2 w2 f2.
Proof.
  intros Hi Hu Hw Hf. unfold calculate_layer9_human_impact. cbv zeta.
  destruct (descending_step 2 4 6 i1 i2 Hi) as (Hinf & _).
  destruct (descending_step 4 6 8 u1 u2 Hu) as (Hun & _).
  destruct (wage_step w1 w2 Hw) as (Hwage & _).
  apply clamp_monotone. repeat apply Qplus_le_compat.
  - exact Hinf.
  - exact Hun.
  - exact Hwage.
  - apply cap_monotone, div_monotone; [reflexivity|exact Hf].
Qed.

Lemma layer9_monotone_witness :
  calculate_layer9_human_impact 5 7 (-0.5) 5.4
  <= calculate_layer9_human_impact 0.3 4.2 1 6.
Proof.
  apply (layer9_monotone 5 0.3 7 4.2 (-0.5) 1 5.4 6); discriminate.
Defined.

Lemma descending_step_below (t1 t2 t3 x : Q) :
  t1 <= x ->
  (if x <? t1 then 3.0
   else if x <? t2 then 2.0
   else if x <? t3 then 1.0
   else 0.0) <= 2.
Proof. intros Hx. py_arith. Qed.

Lemma wage_step_below (w : Q) :
  w <= 2 ->
  (if w >? 2 then 2.0 else if w >? 0 then 1.0 else 0.0) <= 1.
Proof. intros Hw. py_arith. Qed.

(** X24.  Layer 9 returns 10 whenever inflation is below 2, unemployment is
    below 4, real wage growth is above 2 (all three strictly) and the food
    security score is at least 10; with an inflation of 2 or more, an
    unemployment of 4 or more, or a real wage growth of 2 or less, it
    returns at most 9, whatever the food security score. *)
Theorem layer9_full_marks (inflation unemployment wage food : Q) :
  (inflation < 2 -> unemployment < 4 -> 2 < wage -> 10 <= food ->
   calculate_layer9_human_impact inflation unemployment wage food == 10) /\
  (2 <= inflation \/ 4 <= unemployment \/ wage <= 2 ->
   calculate_layer9_human_impact inflation unemployment wage food <= 9).
Proof.
  unfold calculate_layer9_human_impact. cbv zeta.
  destruct (descending_step 2 4 6 inflation inflation (Qle_refl _))
    as (_ & I3 & Iiff).
  destruct (descending_step 4 6 8 unemployment unemployment (Qle_refl _))
    as (_ & U3 & Uiff).
  destruct (wage_step wage wage (Qle_refl _)) as (_ & W2 & Wiff).
  cbv beta in I3, Iiff, U3, Uiff, W2, Wiff.
  pose proof (cap_le (food / 5) 2.0) as Hf.
  split.
  - intros Hi Hu Hw Hfood.
    apply Iiff in Hi. apply Uiff in Hu. apply Wiff in Hw.
    assert (H2 : 2.0 <= Py.min (food / 5) 2.0)
      by (apply cap_reached_iff; qinv_consts; lra).
    apply clamp_above. lra.
  - intros [Hi|[Hu|Hw]].
    + pose proof (descending_step_below 2 4 6 inflation Hi) as I2.
      apply clamp_le; lra.
    + pose proof (descending_step_below 4 6 8 unemployment Hu) as U2.
      apply clamp_le; lra.
    + pose proof (wage_step_below wage Hw) as W1.
      apply clamp_le; lra.
Qed.

Lemma layer9_full_marks_witness :
  calculate_layer9_human_impact 1 3 3 10 == 10 /\
  calculate_layer9_human_impact 2 3 3 10 <= 9.
Proof.
  split.
  - apply (layer9_full_marks 1 3 3 10); try reflexivity; discriminate.
  - apply (layer9_full_marks 2 3 3 10). left. discriminate.
Defined.

(** ** The grade ladder *)

(** X25.  The ladder as half-open intervals: each grade is returned on
    exactly one interval of scores, A+ from 9.5 up and F below 2.0, the
    twelve thresholds being inclusive lower bounds. *)
Theorem grade_intervals (score : Q) :
  (_calculate_grade score = "A+" <-> 9.5 <= score) /\
  (_calculate_grade score = "A" <-> 9.0 <= score < 9.5) /\
  (_calculate_grade score = "A-" <-> 8.5 <= score < 9.0) /\
  (_calculate_grade score = "B+" <-> 8.0 <= score < 8.5) /\
  (_calculate_grade score = "B" <-> 7.0 <= score < 8.0) /\
  (_calculate_grade score = "B-" <-> 6.5 <= score < 7.0) /\
  (_calculate_grade score = "C+" <-> 6.0 <= score < 6.5) /\
  (_calculate_grade score = "C" <-> 5.0 <= score < 6.0) /\
  (_calculate_grade score = "C-" <-> 4.5 <= score < 5.0) /\
  (_calculate_grade score = "D+" <-> 4.0 <= score < 4.5) /\
  (_calculate_grade score = "D" <-> 3.0 <= score < 4.0) /\
  (_calculate_grade score = "D-" <-> 2.0 <= score < 3.0) /\
  (_calculate_grade score = "F" <-> score < 2.0).
Proof.
  unfold _calculate_grade.
  repeat match goal with |- _ /\ _ => split end;
    (split; [py_cases; intros E; first [discriminate E | lra | split; lra]
            | intros H; py_cases;
              first [reflexivity | exfalso; lra | exfalso; destruct H; lra]]).
Qed.

Ltac rank_or_absurd :=
  first [ apply Nat.leb_le; vm_compute; reflexivity | exfalso; lra ].

Lemma grade_rank_monotone (s1 s2 : Q) :
  s1 <= s2 ->
  (grade_rank (_calculate_grade s1) <= grade_rank (_calculate_grade s2))%nat.
Proof.
  intros Hle. unfold _calculate_grade. py_cases; rank_or_absurd.
Qed.

Lemma grade_rank_step (s1 s2 : Q) :
  s2 <= s1 + 0.5 ->
  (grade_rank (_calculate_grade s2)
   <= S (grade_rank (_calculate_grade s1)))%nat.
Proof.
  intros Hle. unfold _calculate_grade. py_cases; rank_or_absurd.
Qed.

(** X26.  The ladder is monotone and has no gap: a higher score never gets
    a lower grade, and raising a score by at most 0.5 raises the grade by
    at most one step of the thirteen. *)
Theorem grade_monotone_one_step (s1 s2 : Q) :
  s1 <= s2 ->
  (grade_rank (_calculate_grade s1) <= grade_rank (_calculate_grade s2))%nat /\
  (s2 <= s1 + 0.5 ->
   (grade_rank (_calculate_grade s2)
    <= S (grade_rank (_calculate_grade s1)))%nat).
Proof.
  intros Hle. split.
  - apply grade_rank_monotone, Hle.
  - apply grade_rank_step.
Qed.

Lemma grade_monotone_one_step_witness :
  (grade_rank (_calculate_grade 9.48) <= grade_rank (_calculate_grade 9.5))%nat /\
  (9.5 <= 9.48 + 0.5 ->
   (grade_rank (_calculate_grade 9.5)
    <= S (grade_rank (_calculate_grade 9.48)))%nat).
Proof. apply (grade_monotone_one_step 9.48 9.5). discriminate. Defined.

(** * The engine in binary64 *)

(** ** Comparisons and the final clamp *)

Lemma ltb_leb (x y : float) :
  (x <? y)%float = true -> (x <=? y)%float = true.
Proof.
  rewrite ltb_spec, leb_spec. unfold SFltb, SFleb.
  destruct (SFcompare (Prim2SF x) (Prim2SF y)) as [[]|];
    intros H; first [reflexivity | discriminate H].
Qed.

(** The clamp [max(0.0, min(10.0, score))] returns a double of [0, 10] for
    every operand, a NaN included: a NaN compares smaller than nothing, so
    [min] keeps its first argument 10.0. *)
Lemma clamp64_in_range (score : float) :
  in_range64 (F64.max 0.0 (F64.min 10.0 score)).
Proof.
  unfold in_range64, F64.max, F64.min.
  destruct (score <? 10.0)%float eqn:E1.
  - destruct (0.0 <? score)%float eqn:E2.
    + split; apply ltb_leb; assumption.
    + split; reflexivity.
  - split; reflexivity.
Qed.

(** ** The conversion of the audit delay *)

Lemma int_to_float64_in_range (n : Z) :
  (Z.abs n < Py.float_overflow_bound)%Z ->
  F64.int_to_float n = Ok (SF2Prim (binary_normalize prec emax n 0 false)).
Proof.
  intros H. unfold F64.int_to_float.
  destruct (Z.leb_spec Py.float_overflow_bound (Z.abs n)) as [Hle|_];
    [lia|reflexivity].
Qed.

Lemma int_to_float64_overflow (n : Z) :
  (Py.float_overflow_bound <= Z.abs n)%Z ->
  F64.int_to_float n = Raise OverflowError.
Proof.
  intros H. unfold F64.int_to_float.
  destruct (Z.leb_spec Py.float_overflow_bound (Z.abs n)) as [_|Hlt];
    [reflexivity|lia].
Qed.

(** The bound is the first integer whose nearest double is an infinity:
    the integer just below it still rounds to the largest double. *)
Lemma float_overflow_bound_is_tight :
  binary_normalize prec emax Py.float_overflow_bound 0 false
  = S754_infinity false /\
  binary_normalize prec emax (Py.float_overflow_bound - 1) 0 false
  = S754_finite false (2 ^ 53 - 1) 971.
Proof. split; vm_compute; reflexivity. Qed.

(** ** The nine scorers return a double of [0, 10] *)

Lemma layer1_ok (on_time : bool) (delay : Z) :
  (Z.abs delay < Py.float_overflow_bound)%Z ->
  exists v : float,
    BIICalculator64.calculate_layer1_fiscal_transparency on_time delay = Ok v
    /\ in_range64 v.
Proof.
  intros H. unfold BIICalculator64.calculate_layer1_fiscal_transparency.
  rewrite (int_to_float64_in_range delay H).
  eexists. split; [reflexivity|]. apply clamp64_in_range.
Qed.

Lemma layer1_raises (on_time : bool) (delay : Z) :
  (Py.float_overflow_bound <= Z.abs delay)%Z ->
  BIICalculator64.calculate_layer1_fiscal_transparency on_time delay
  = Raise OverflowError.
Proof.
  intros H. unfold BIICalculator64.calculate_layer1_fiscal_transparency.
  rewrite (int_to_float64_overflow delay H). reflexivity.
Qed.

Lemma layer2_range (n t c : float) :
  in_range64 (BIICalculator64.calculate_layer2_revenue_stability n t c).
Proof. apply clamp64_in_range. Qed.

Lemma layer3_range (d s : float) (t : string) :
  in_range64 (BIICalculator64.calculate_layer3_debt_health d s t).
Proof. apply clamp64_in_range. Qed.

(** Layer 4 never raises: the division is reached with a divisor that does
    not compare equal to zero. *)
Lemma layer4_ok (productive consumption : float) :
  exists v : float,
    BIICalculator64.calculate_layer4_expenditure_efficiency
      productive consumption = Ok v /\ in_range64 v.
Proof.
  unfold BIICalculator64.calculate_layer4_expenditure_efficiency, F64.truediv.
  destruct (consumption =? 0)%float eqn:E.
  - exists 0%float. split; [reflexivity|]. split; reflexivity.
  - eexists. split; [reflexivity|]. apply clamp64_in_range.
Qed.

Lemma layer5_range (r : Z) (s f : float) :
  in_range64 (BIICalculator64.calculate_layer5_private_sector r s f).
Proof. apply clamp64_in_range. Qed.

Lemma layer6_range (g c i : float) :
  in_range64 (BIICalculator64.calculate_layer6_trade_integration g c i).
Proof. apply clamp64_in_range. Qed.

Lemma layer7_range (b : float) (n : Z) (a : float) :
  in_range64 (BIICalculator64.calculate_layer7_climate_resilience b n a).
Proof. apply clamp64_in_range. Qed.

Lemma layer8_range (i e l : float) :
  in_range64 (BIICalculator64.calculate_layer8_digital_readiness i e l).
Proof. apply clamp64_in_range. Qed.

Lemma layer9_range (i u w f : float) :
  in_range64 (BIICalculator64.calculate_layer9_human_impact i u w f).
Proof. apply clamp64_in_range. Qed.

(** ** The nine local variables of [calculate_bii] *)

Lemma score_layers_ok (inputs : LayerInputs) :
  (Z.abs (audit_delay_years inputs) < Py.float_overflow_bound)%Z ->
  exists ls : BIICalculator64.LayerScores,
    BIICalculator64.score_layers inputs = Ok ls /\ scores_in_range ls.
Proof.
  intros H.
  destruct (layer1_ok (budget_on_time inputs) _ H) as (v1 & E1 & R1).
  destruct (layer4_ok (productive_spending_percent inputs)
              (consumption_spending_percent inputs)) as (v4 & E4 & R4).
  unfold BIICalculator64.score_layers. rewrite E1.
  cbn [mbind Py.res_bind]. rewrite E4. cbn [mbind Py.res_bind].
  eexists. split; [reflexivity|].
  unfold scores_in_range; cbn [BIICalculator64.layer1 BIICalculator64.layer2
    BIICalculator64.layer3 BIICalculator64.layer4 BIICalculator64.layer5
    BIICalculator64.layer6 BIICalculator64.layer7 BIICalculator64.layer8
    BIICalculator64.layer9].
  repeat split; first [apply R1 | apply R4 | apply clamp64_in_range].
Qed.

Lemma score_layers_raises (inputs : LayerInputs) :
  (Py.float_overflow_bound <= Z.abs (audit_delay_years inputs))%Z ->
  BIICalculator64.score_layers inputs = Raise OverflowError.
Proof.
  intros H. unfold BIICalculator64.score_layers.
  rewrite (layer1_raises (budget_on_time inputs) _ H). reflexivity.
Qed.

(** ** The weighted sum and the result record in the class store *)

Lemma weighted_overall_cls (ls : BIICalculator64.LayerScores) :
  runM (BIICalculator64.weighted_overall ls) BIICalculator64.cls
  = (Ok (weighted_sum ls), BIICalculator64.cls).
Proof. reflexivity. Qed.

Lemma calculate_bii_cls (inputs : LayerInputs)
    (ls : BIICalculator64.LayerScores) :
  BIICalculator64.score_layers inputs = Ok ls ->
  runM (BIICalculator64.calculate_bii inputs) BIICalculator64.cls
  = (Ok (result_of ls), BIICalculator64.cls).
Proof.
  intros E. unfold BIICalculator64.calculate_bii. rewrite E.
  unfold mbind at 1; unfold M_bind at 1; cbn [runM lift].
  unfold mbind at 1; unfold M_bind at 1; cbn [runM].
  rewrite weighted_overall_cls. reflexivity.
Qed.

Lemma calculate_bii_raises (inputs : LayerInputs) (e : exn) (s : Store) :
  BIICalculator64.score_layers inputs = Raise e ->
  runM (BIICalculator64.calculate_bii inputs) s = (Raise e, s).
Proof.
  intros E. unfold BIICalculator64.calculate_bii. rewrite E. reflexivity.
Qed.

(** ** Layer scores and composite *)




(** ** The grade *)

(** C2.  For every input record whose audit delay has a binary64 value,
    the grade of the result record is the threshold ladder applied to the
    weighted composite before it is rounded, and the [bii_overall] of the
    same record is that composite rounded to one decimal place. *)
Theorem grade_is_ladder_of_unrounded_composite (inputs : LayerInputs) :
  (Z.abs (audit_delay_years inputs) < Py.float_overflow_bound)%Z ->
  exists (ls : BIICalculator64.LayerScores) (c : float) (r : BIIResult),
    BIICalculator64.score_layers inputs = Ok ls /\
    runM (BIICalculator64.weighted_overall ls) BIICalculator64.cls
    = (Ok c, BIICalculator64.cls) /\
    runM (BIICalculator64.calculate_bii inputs) BIICalculator64.cls
    = (Ok r, BIICalculator64.cls) /\
    bii_overall r = F64.round c 1 /\
    bii_grade r = BIICalculator64._calculate_grade c.
Proof.
  intros H. destruct (score_layers_ok inputs H) as (ls & Els & _).
  exists ls, (weighted_sum ls), (result_of ls).
  split; [exact Els|]. split; [apply weighted_overall_cls|].
  split; [apply calculate_bii_cls; exact Els|]. split; reflexivity.
Qed.

Lemma grade_is_ladder_of_unrounded_composite_witness :
  exists (ls : BIICalculator64.LayerScores) (c : float) (r : BIIResult),
    BIICalculator64.score_layers BIICalculator64.inputs_near_top = Ok ls /\
    runM (BIICalculator64.weighted_overall ls) BIICalculator64.cls
    = (Ok c, BIICalculator64.cls) /\
    runM (BIICalculator64.calculate_bii BIICalculator64.inputs_near_top)
      BIICalculator64.cls
    = (Ok r, BIICalculator64.cls) /\
    bii_overall r = F64.round c 1 /\
    bii_grade r = BIICalculator64._calculate_grade c.
Proof.
  apply (grade_is_ladder_of_unrounded_composite
           BIICalculator64.inputs_near_top).
  reflexivity.
Defined.

(** The grade is not the ladder applied to the rounded composite: with
    full marks on every layer but Layer 4, which scores 6, the composite is
    9.48; the record holds [bii_overall = 9.5] and the grade A, while the
    ladder applied to 9.5 gives A+. *)
Lemma grade_differs_from_ladder_of_rounded_composite :
  exists r : BIIResult,
    runM (BIICalculator64.calculate_bii BIICalculator64.inputs_near_top)
      BIICalculator64.cls
    = (Ok r, BIICalculator64.cls) /\
    bii_overall r = 9.5%float /\
    bii_grade r = "A" /\
    BIICalculator64._calculate_grade (bii_overall r) = "A+" /\
    bii_grade r <> BIICalculator64._calculate_grade (bii_overall r).
Proof.
  eexists. split; [vm_compute; reflexivity|].
  repeat split; try (vm_compute; reflexivity). vm_compute. discriminate.
Qed.

(** ** Determinism: the store is only read *)

Lemma read_only_ret {A : Type} (a : A) : read_only (mret a).
Proof. intros s. reflexivity. Qed.

Lemma read_only_lift {A : Type} (r : res A) : read_only (lift r).
Proof. intros s. reflexivity. Qed.

Lemma read_only_read_LAYER_WEIGHTS : read_only read_LAYER_WEIGHTS.
Proof. intros s. reflexivity. Qed.

Lemma read_only_bind {A B : Type} (m : M A) (f : A -> M B) :
  read_only m -> (forall a, read_only (f a)) -> read_only (mbind f m).
Proof.
  intros Hm Hf s. unfold mbind, M_bind. cbn [runM].
  specialize (Hm s). destruct (runM m s) as [[a|e] s1]; simpl in Hm; subst s1.
  - apply Hf.
  - reflexivity.
Qed.

Lemma read_only_weight (name : string) :
  read_only (BIICalculator64.weight name).
Proof.
  unfold BIICalculator64.weight. apply read_only_bind.
  - apply read_only_read_LAYER_WEIGHTS.
  - intros d. apply read_only_lift.
Qed.

Lemma read_only_weighted_overall (ls : BIICalculator64.LayerScores) :
  read_only (BIICalculator64.weighted_overall ls).
Proof.
  unfold BIICalculator64.weighted_overall.
  repeat (apply read_only_bind; [apply read_only_weight | intros ?]).
  apply read_only_ret.
Qed.

Lemma read_only_calculate_bii (inputs : LayerInputs) :
  read_only (BIICalculator64.calculate_bii inputs).
Proof.
  unfold BIICalculator64.calculate_bii.
  apply read_only_bind; [apply read_only_lift | intros ls].
  apply read_only_bind; [apply read_only_weighted_overall | intros c].
  apply read_only_ret.
Qed.

(** C9.  From any store, [calculate_bii] leaves the store as it found it,
    so a second invocation on the same input record, run in the store the
    first one left, has the same outcome as the first.  In the class
    store, both invocations return the same result record when the audit
    delay has a binary64 value, and both raise [OverflowError] when it
    has none. *)
Theorem calculate_bii_two_runs_agree (s : Store) (inputs : LayerInputs) :
  snd (runM (BIICalculator64.calculate_bii inputs) s) = s /\
  runM (BIICalculator64.calculate_bii inputs)
    (snd (runM (BIICalculator64.calculate_bii inputs) s))
  = runM (BIICalculator64.calculate_bii inputs) s /\
  ((Z.abs (audit_delay_years inputs) < Py.float_overflow_bound)%Z ->
   exists r : BIIResult,
     runM (BIICalculator64.calculate_bii inputs) BIICalculator64.cls
     = (Ok r, BIICalculator64.cls) /\
     runM (BIICalculator64.calculate_bii inputs)
       (snd (runM (BIICalculator64.calculate_bii inputs)
               BIICalculator64.cls))
     = (Ok r, BIICalculator64.cls)) /\
  ((Py.float_overflow_bound <= Z.abs (audit_delay_years inputs))%Z ->
   runM (BIICalculator64.calculate_bii inputs) BIICalculator64.cls
   = (Raise OverflowError, BIICalculator64.cls) /\
   runM (BIICalculator64.calculate_bii inputs)
     (snd (runM (BIICalculator64.calculate_bii inputs)
             BIICalculator64.cls))
   = (Raise OverflowError, BIICalculator64.cls)).
Proof.
  pose proof (read_only_calculate_bii inputs) as Hro.
  split; [apply Hro|]. split; [rewrite Hro; reflexivity|]. split.
  - intros H. destruct (score_layers_ok inputs H) as (ls & Els & _).
    exists (result_of ls).
    rewrite Hro. split; apply calculate_bii_cls; exact Els.
  - intros H. pose proof (score_layers_raises inputs H) as Els.
    rewrite Hro. split; apply calculate_bii_raises; exact Els.
Qed.

(** ** The sample record of the source *)

(** On the Trinidad and Tobago sample record [calculate_bii] returns
    the layer scores 8.0, 10.0, 1.6, 2.5, 3.9, 2.2, 3.4, 5.9, 6.1, the
    composite 4.9 and the grade C-. *)
Theorem sample_record_result :
  runM (BIICalculator64.calculate_bii BIICalculator64.inputs_2026)
    BIICalculator64.cls
  = (Ok {| layer1_fiscal_transparency := 8.0;
           layer2_revenue_stability := 10.0;
           layer3_debt_health := 1.6;
           layer4_expenditure_efficiency := 2.5;
           layer5_private_sector := 3.9;
           layer6_trade_integration := 2.2;
           layer7_climate_resilience := 3.4;
           layer8_digital_readiness := 5.9;
           layer9_human_impact := 6.1;
           bii_overall := 4.9;
           bii_grade := "C-" |}%float,
     BIICalculator64.cls).
Proof. vm_compute. reflexivity. Qed.

(** ** Exceptional outcomes *)

Lemma weight_bind_some {B : Type} (s : Store) (k : string) (w : float)
    (f : float -> M B) :
  cls_LAYER_WEIGHTS s !! k = Some w ->
  runM (BIICalculator64.weight k ≫= f) s = runM (f w) s.
Proof.
  intros E. unfold BIICalculator64.weight, read_LAYER_WEIGHTS, lift,
    F64.getitem.
  cbn [mbind M_bind runM]. unfold mbind, M_bind. cbn [runM].
  rewrite E. reflexivity.
Qed.

Lemma weight_bind_none {B : Type} (s : Store) (k : string)
    (f : float -> M B) :
  cls_LAYER_WEIGHTS s !! k = None ->
  runM (BIICalculator64.weight k ≫= f) s = (Raise (KeyError k), s).
Proof.
  intros E. unfold BIICalculator64.weight, read_LAYER_WEIGHTS, lift,
    F64.getitem.
  unfold mbind, M_bind. cbn [runM]. rewrite E. reflexivity.
Qed.

Lemma lift_bind_ok {A B : Type} (s : Store) (a : A) (f : A -> M B) :
  runM (lift (Ok a) ≫= f) s = runM (f a) s.
Proof. reflexivity. Qed.

(** X30.  [calculate_bii] has three outcomes, and it leaves the store
    unchanged in each.  When the audit delay has no binary64 value it
    raises [OverflowError], before any weight is read.  Otherwise, in a
    store whose [LAYER_WEIGHTS] lacks one of the nine keys it raises
    [KeyError] for the first missing key in the order of the weighted sum,
    and with the nine keys present it returns a result record, whatever
    else the dictionary holds. *)
Theorem calculate_bii_outcomes (s : Store) (inputs : LayerInputs) :
  ((Py.float_overflow_bound <= Z.abs (audit_delay_years inputs))%Z ->
   runM (BIICalculator64.calculate_bii inputs) s = (Raise OverflowError, s))
  /\
  ((Z.abs (audit_delay_years inputs) < Py.float_overflow_bound)%Z ->
   match first_missing (cls_LAYER_WEIGHTS s) layer_names with
   | Some key =>
       runM (BIICalculator64.calculate_bii inputs) s
       = (Raise (KeyError key), s)
   | None =>
       exists r : BIIResult,
         runM (BIICalculator64.calculate_bii inputs) s = (Ok r, s)
   end).
Proof.
  split.
  - intros H. apply calculate_bii_raises, score_layers_raises, H.
  - intros H. destruct (score_layers_ok inputs H) as (ls & Hls & _).
    unfold BIICalculator64.calculate_bii. rewrite Hls, lift_bind_ok.
    unfold BIICalculator64.weighted_overall, first_missing, layer_names.
    repeat match goal with
    | |- context [match cls_LAYER_WEIGHTS s !! ?k with _ => _ end] =>
        destruct (cls_LAYER_WEIGHTS s !! k) eqn:?
    end;
    match goal with
    | |- _ = _ =>
        unfold mbind at 1; unfold M_bind at 1; cbn [runM];
        repeat (erewrite weight_bind_some by eassumption);
        erewrite weight_bind_none by eassumption; reflexivity
    | |- exists _, _ =>
        eexists; unfold mbind at 1; unfold M_bind at 1; cbn [runM];
        repeat (erewrite weight_bind_some by eassumption); reflexivity
    end.
Qed.

Lemma calculate_bii_outcomes_witness :
  runM (BIICalculator64.calculate_bii
          {| budget_on_time := true; audit_delay_years := 10 ^ 309;
             non_oil_revenue_percent := 78.0;
             tax_base_breadth_score := 5.0; collection_efficiency := 5.0;
             debt_to_gdp := 81.8; debt_service_to_revenue := 20.6;
             fiscal_balance_trend := "declining";
             productive_spending_percent := 25.4;
             consumption_spending_percent := 50.3;
             ease_of_business_rank := 105;
             sme_support_delivery_rate := 28.0; forex_access_score := 4.0;
             non_oil_exports_growth := -6.0;
             caricom_integration_score := 5.2;
             export_diversification_index := 0.78;
             climate_budget_gdp_percent := 0.18; green_projects_count := 5;
             adaptation_funding_score := 3.6; ict_budget_percent := 0.9;
             egov_adoption_percent := 32.0; digital_literacy_score := 5.1;
             inflation_rate := 0.3; unemployment_rate := 4.2;
             real_wage_growth := -0.5; food_security_score := 5.4 |}%float)
    BIICalculator64.cls
  = (Raise OverflowError, BIICalculator64.cls) /\
  runM (BIICalculator64.calculate_bii BIICalculator64.inputs_2026)
    {| cls_LAYER_WEIGHTS := delete "debt_health"
                              BIICalculator64.LAYER_WEIGHTS |}
  = (Raise (KeyError "debt_health"),
     {| cls_LAYER_WEIGHTS := delete "debt_health"
                               BIICalculator64.LAYER_WEIGHTS |}).
Proof.
  split.
  - apply calculate_bii_outcomes. cbn [audit_delay_years].
    intros Hlt. vm_compute in Hlt. discriminate.
  - exact (proj2 (calculate_bii_outcomes
                    {| cls_LAYER_WEIGHTS := delete "debt_health"
                                              BIICalculator64.LAYER_WEIGHTS |}
                    BIICalculator64.inputs_2026) eq_refl).
Defined.

